(* ===================================================================== *)
(* Ingestion orchestration and run tracking of the finance pipeline.     *)
(*                                                                       *)
(* A shallow embedding of                                                *)
(*   src/load/snowflake_loader.py   (class SnowflakeLoader)              *)
(*   dags/finance_pipeline_dag.py   (task callables, default_args, DAG)  *)
(* and the properties of the loader, the watermark store, the run        *)
(* ledger, the data-quality gate and the task graph.                     *)
(*                                                                       *)
(* Conventions of the embedding:                                         *)
(*  - Python methods become functions in a state-and-exception monad     *)
(*    over [World]; [Raise e] is a Python exception leaving the call.    *)
(*  - What the outside answers during one call (does the connection      *)
(*    open, does the INSERT fail, what is the clock) is the record       *)
(*    [Env]; every theorem quantifies over it.                           *)
(*  - DataFrames are objects on a heap, addressed by location, so that   *)
(*    in-place column assignment and [df.copy()] are told apart.         *)
(*  - logger.warning and logger.error are recorded in the world's log;   *)
(*    logger.info and logger.debug have no effect on anything the        *)
(*    properties speak of and are left out.                              *)
(* ===================================================================== *)

From Stdlib Require Import ZArith Bool Ascii String Lia.
From stdpp Require Import base list strings gmap pretty.

Open Scope string_scope.
Open Scope list_scope.
Open Scope Z_scope.

(* --------------------------------------------------------------------- *)
(* Python values                                                          *)
(* --------------------------------------------------------------------- *)

(* An exception object: its class and its message; [str(e)] is the
   message. *)
Inductive exn : Type :=
| PyExn (cls : string) (msg : string).

Definition exn_str (e : exn) : string :=
  match e with PyExn _ msg => msg end.

(* datetime.date *)
Record date : Type := mkdate { year : Z; month : Z; day : Z }.

(* datetime.datetime / pandas.Timestamp: a calendar date and the seconds
   elapsed since midnight. *)
Record datetime : Type := mkdatetime { dt_date : date; dt_secs : Z }.

(* The cells a frame can hold. [VNone] stands for None, NaT and SQL NULL. *)
Inductive value : Type :=
| VNone
| VStr (s : string)
| VInt (z : Z)
| VDate (d : date)
| VTimestamp (t : datetime).

Definition is_leap (y : Z) : bool :=
  (y mod 4 =? 0) && (negb (y mod 100 =? 0) || (y mod 400 =? 0)).

Definition days_before_year (y : Z) : Z :=
  let y1 := y - 1 in y1 * 365 + y1 / 4 - y1 / 100 + y1 / 400.

Definition days_before_month (y m : Z) : Z :=
  nth (Z.to_nat m)
      [0; 0; 31; 59; 90; 120; 151; 181; 212; 243; 273; 304; 334] 0
  + (if (2 <? m) && is_leap y then 1 else 0).

(* date.toordinal(): day 1 is 0001-01-01. *)
Definition toordinal (d : date) : Z :=
  days_before_year (year d) + days_before_month (year d) (month d) + day d.

(* (a - b).days for two dates *)
Definition days_between (a b : date) : Z := toordinal a - toordinal b.

Fixpoint zfill_go (n : nat) (s : string) : string :=
  match n with
  | O => s
  | S n' => zfill_go n' ("0" +:+ s)
  end.

(* str.zfill *)
Definition zfill (width : nat) (s : string) : string :=
  zfill_go (width - String.length s) s.

Definition pad (width : nat) (z : Z) : string := zfill width (pretty z).

(* date.isoformat(), which is also str(date) *)
Definition isoformat (d : date) : string :=
  pad 4 (year d) +:+ "-" +:+ pad 2 (month d) +:+ "-" +:+ pad 2 (day d).

Definition time_str (secs : Z) : string :=
  pad 2 (secs / 3600) +:+ ":" +:+ pad 2 (secs / 60 mod 60) +:+ ":" +:+ pad 2 (secs mod 60).

(* str(v) *)
Definition py_str (v : value) : string :=
  match v with
  | VNone => "None"
  | VStr s => s
  | VInt z => pretty z
  | VDate d => isoformat d
  | VTimestamp t => isoformat (dt_date t) +:+ " " +:+ time_str (dt_secs t)
  end.

Definition datetime_ltb (a b : datetime) : bool :=
  let oa := toordinal (dt_date a) in
  let ob := toordinal (dt_date b) in
  (oa <? ob) || ((oa =? ob) && (dt_secs a <? dt_secs b)).

(* a < b in Python; [None] where Python raises TypeError. *)
Definition value_ltb (a b : value) : option bool :=
  match a, b with
  | VInt x, VInt y => Some (x <? y)
  | VStr x, VStr y =>
      Some (match String.compare x y with Lt => true | _ => false end)
  | VDate x, VDate y => Some (toordinal x <? toordinal y)
  | VTimestamp x, VTimestamp y => Some (datetime_ltb x y)
  | _, _ => None
  end.

(* --------------------------------------------------------------------- *)
(* pandas                                                                 *)
(* --------------------------------------------------------------------- *)

Inductive dtype : Type :=
| datetime64
| object
| int64.

Record Series : Type := mkSeries { s_dtype : dtype; s_values : list value }.

(* A frame: the length of its index and its named columns, in order. *)
Record DataFrame : Type := mkDataFrame {
  index_len : nat;
  columns : list (string * Series)
}.

(* pd.DataFrame() *)
Definition empty_frame : DataFrame := mkDataFrame 0 [].

(* len(df) *)
Definition df_len (df : DataFrame) : nat := index_len df.

(* df.empty: true when any axis has length 0. *)
Definition df_empty (df : DataFrame) : bool :=
  (index_len df =? 0)%nat || (length (columns df) =? 0)%nat.

(* list(df.columns) *)
Definition df_columns (df : DataFrame) : list string := (columns df).*1.

Fixpoint assoc {A : Type} (k : string) (l : list (string * A)) : option A :=
  match l with
  | [] => None
  | (k', a) :: l' => if String.eqb k k' then Some a else assoc k l'
  end.

Fixpoint assoc_set {A : Type} (k : string) (a : A) (l : list (string * A))
  : list (string * A) :=
  match l with
  | [] => [(k, a)]
  | (k', a') :: l' =>
      if String.eqb k k' then (k, a) :: l' else (k', a') :: assoc_set k a l'
  end.

(* df[col], [None] where pandas raises KeyError *)
Definition df_get (df : DataFrame) (col : string) : option Series :=
  assoc col (columns df).

(* df[col] = s : replaces the column of that name, or adds it last. *)
Definition df_set (df : DataFrame) (col : string) (s : Series) : DataFrame :=
  mkDataFrame (index_len df) (assoc_set col s (columns df)).

(* df[col] = scalar : the scalar broadcast along the index. *)
Definition df_set_scalar (df : DataFrame) (col : string) (v : value) : DataFrame :=
  df_set df col (mkSeries object (replicate (index_len df) v)).

(* pd.api.types.is_datetime64_any_dtype *)
Definition is_datetime64_any_dtype (s : Series) : bool :=
  match s_dtype s with datetime64 => true | _ => false end.

Definition to_date (v : value) : value :=
  match v with
  | VTimestamp t => VDate (dt_date t)
  | _ => v
  end.

(* series.dt.date : every timestamp loses its time of day; the result is
   an object column. *)
Definition dt_date_accessor (s : Series) : Series :=
  mkSeries object (to_date <$> s_values s).

Fixpoint max_go (best : value) (l : list value) : option value :=
  match l with
  | [] => Some best
  | VNone :: l' => max_go best l'
  | v :: l' =>
      match best with
      | VNone => max_go v l'
      | _ =>
          match value_ltb best v with
          | Some true => max_go v l'
          | Some false => max_go best l'
          | None => None
          end
      end
  end.

(* series.max(), nulls skipped; [None] where Python raises TypeError on
   values that do not compare.  An all-null column gives the null. *)
Definition series_max (s : Series) : option value := max_go VNone (s_values s).

(* A row as the warehouse stores it. *)
Definition Row : Type := list (string * value).

Definition row_at (df : DataFrame) (i : nat) : Row :=
  (fun c : string * Series => (c.1, default VNone (s_values c.2 !! i))) <$> columns df.

(* The rows of a frame, in index order. *)
Definition df_rows (df : DataFrame) : list Row :=
  row_at df <$> seq 0 (index_len df).

Definition ascii_lower (c : ascii) : ascii :=
  let n := Ascii.nat_of_ascii c in
  if ((65 <=? n) && (n <=? 90))%nat then Ascii.ascii_of_nat (n + 32) else c.

(* str.lower() on ASCII text *)
Fixpoint lower (s : string) : string :=
  match s with
  | EmptyString => EmptyString
  | String c s' => String (ascii_lower c) (lower s')
  end.

(* needle in haystack *)
Fixpoint contains (needle haystack : string) : bool :=
  String.prefix needle haystack
  || match haystack with
     | EmptyString => false
     | String _ h' => contains needle h'
     end.

(* --------------------------------------------------------------------- *)
(* The world the pipeline runs in                                         *)
(* --------------------------------------------------------------------- *)

(* A row of METADATA.INGEST_RUNS, the run ledger. *)
Record RunRecord : Type := mkRunRecord {
  run_id : string;
  dataset_name : string;
  table_name : string;
  run_timestamp : datetime;
  records_loaded : Z;
  status : string;
  error_message : option string
}.

(* A row of METADATA.WATERMARKS, without its key. *)
Record Watermark : Type := mkWatermark {
  watermark_value : string;
  updated_at : datetime
}.

(* self.conn of a SnowflakeLoader: None, an open connection, or a
   connection that was closed. *)
Inductive conn_state : Type :=
| NoConn
| ConnOpen
| ConnClosed.

Inductive level : Type :=
| WARNING
| ERROR.

(* A DataFrame object is known by its location on the heap. *)
Abbreviation loc := nat.

Record World : Type := mkWorld {
  heap : list DataFrame;               (* the DataFrame objects alive *)
  conn : conn_state;                   (* self.conn *)
  tables : gmap string (list Row);     (* warehouse tables by qualified name *)
  ingest_runs : list RunRecord;        (* METADATA.INGEST_RUNS, oldest first *)
  watermarks : gmap string Watermark;  (* METADATA.WATERMARKS by dataset_name *)
  runs_issued : nat;                   (* run identifiers handed out so far *)
  log : list (level * string);         (* warnings and errors, oldest first *)
  xcom : list (string * Z)             (* values pushed to XCom *)
}.

Definition set_heap (h : list DataFrame) (w : World) : World :=
  mkWorld h (conn w) (tables w) (ingest_runs w) (watermarks w) (runs_issued w) (log w) (xcom w).
Definition set_conn (c : conn_state) (w : World) : World :=
  mkWorld (heap w) c (tables w) (ingest_runs w) (watermarks w) (runs_issued w) (log w) (xcom w).
Definition set_tables (t : gmap string (list Row)) (w : World) : World :=
  mkWorld (heap w) (conn w) t (ingest_runs w) (watermarks w) (runs_issued w) (log w) (xcom w).
Definition set_ingest_runs (r : list RunRecord) (w : World) : World :=
  mkWorld (heap w) (conn w) (tables w) r (watermarks w) (runs_issued w) (log w) (xcom w).
Definition set_watermarks (m : gmap string Watermark) (w : World) : World :=
  mkWorld (heap w) (conn w) (tables w) (ingest_runs w) m (runs_issued w) (log w) (xcom w).
Definition set_runs_issued (n : nat) (w : World) : World :=
  mkWorld (heap w) (conn w) (tables w) (ingest_runs w) (watermarks w) n (log w) (xcom w).
Definition set_log (l : list (level * string)) (w : World) : World :=
  mkWorld (heap w) (conn w) (tables w) (ingest_runs w) (watermarks w) (runs_issued w) l (xcom w).
Definition set_xcom (x : list (string * Z)) (w : World) : World :=
  mkWorld (heap w) (conn w) (tables w) (ingest_runs w) (watermarks w) (runs_issued w) (log w) x.

(* What write_pandas answers. *)
Inductive write_answer : Type :=
| Loaded
| Rejected (output : string)
| WriteRaises (e : exn).

(* The two statements the gate sends through execute_query. *)
Inductive Query : Type :=
| SelectCount (table : string)
| SelectMaxDate (table : string).

(* What the outside answers during one call. *)
Record Env : Type := mkEnv {
  now : datetime;                     (* datetime.now() *)
  extracted : exn + DataFrame;        (* what the record producer yields *)
  connect_fault : option exn;         (* snowflake.connector.connect raises *)
  write_pandas_answer : write_answer;
  insert_fault : option exn;          (* INSERT INTO METADATA.INGEST_RUNS raises *)
  merge_fault : option exn;           (* MERGE INTO METADATA.WATERMARKS raises *)
  select_fault : option exn;          (* SELECT ... FROM METADATA.WATERMARKS raises *)
  query_fault : Query -> option exn   (* cursor.execute of the statement raises *)
}.

(* --------------------------------------------------------------------- *)
(* State and exceptions                                                   *)
(* --------------------------------------------------------------------- *)

Inductive outcome (A : Type) : Type :=
| Ret (a : A)
| Raise (e : exn).
Arguments Ret {A} a.
Arguments Raise {A} e.

Definition M (A : Type) : Type := World -> outcome A * World.

Definition ret {A : Type} (a : A) : M A := fun w => (Ret a, w).

Definition raise {A : Type} (e : exn) : M A := fun w => (Raise e, w).

Definition bind {A B : Type} (m : M A) (k : A -> M B) : M B :=
  fun w =>
    match m w with
    | (Ret a, w') => k a w'
    | (Raise e, w') => (Raise e, w')
    end.

Declare Scope py_scope.
Delimit Scope py_scope with py.
Notation "'do' x <- m ; k" := (bind m (fun x => k))
  (at level 10, x name, m at level 100, k at level 200) : py_scope.
Notation "'do' ' p <- m ; k" := (bind m (fun x => match x with p => k end))
  (at level 10, p pattern, m at level 100, k at level 200) : py_scope.
Notation "m ;;; k" := (bind m (fun _ => k))
  (at level 100, k at level 200, right associativity) : py_scope.
Open Scope py_scope.

(* try: body  except Exception as e: handler e *)
Definition try_except {A : Type} (body : M A) (handler : exn -> M A) : M A :=
  fun w =>
    match body w with
    | (Ret a, w') => (Ret a, w')
    | (Raise e, w') => handler e w'
    end.

(* try: body  finally: cleanup *)
Definition try_finally {A : Type} (body : M A) (cleanup : M unit) : M A :=
  fun w =>
    match body w with
    | (r, w') =>
        match cleanup w' with
        | (Ret _, w'') => (r, w'')
        | (Raise e, w'') => (Raise e, w'')
        end
    end.

(* for x in l: body x *)
Fixpoint for_each {A : Type} (l : list A) (body : A -> M unit) : M unit :=
  match l with
  | [] => ret tt
  | x :: l' => body x ;;; for_each l' body
  end.

Definition get_world : M World := fun w => (Ret w, w).

Definition modify (f : World -> World) : M unit := fun w => (Ret tt, f w).

(* An optional result lifted into the monad: [None] raises [e]. *)
Definition or_raise {A : Type} (e : exn) (o : option A) : M A :=
  match o with
  | Some a => ret a
  | None => raise e
  end.

Definition fault (f : option exn) : M unit :=
  match f with
  | Some e => raise e
  | None => ret tt
  end.

Definition logger_warning (msg : string) : M unit :=
  modify (fun w => set_log (log w ++ [(WARNING, msg)]) w).

Definition logger_error (msg : string) : M unit :=
  modify (fun w => set_log (log w ++ [(ERROR, msg)]) w).

(* The frame a location holds.  A location held by running code is
   always allocated. *)
Definition deref (l : loc) : M DataFrame :=
  fun w => (Ret (default empty_frame (heap w !! l)), w).

(* In-place update of the object at [l]. *)
Definition store (l : loc) (d : DataFrame) : M unit :=
  modify (fun w => set_heap (<[l := d]> (heap w)) w).

(* A new object holding [d]. *)
Definition alloc (d : DataFrame) : M loc :=
  fun w => (Ret (length (heap w)), set_heap (heap w ++ [d]) w).

(* df.copy() *)
Definition df_copy (l : loc) : M loc :=
  do d <- deref l; alloc d.

(* --------------------------------------------------------------------- *)
(* Collaborators of the loader                                            *)
(* --------------------------------------------------------------------- *)

Definition run_token (n : nat) : string := "run-" +:+ pretty n.

(** Modelled from the spec: [generate_run_id] of src/common/state_store.py,
    which is not among the sources.  The Run Identifier Generator
    "produces a unique token identifying one extraction-and-load attempt":
    the n-th call hands out the n-th token. *)
Definition generate_run_id : M string :=
  fun w => (Ret (run_token (runs_issued w)), set_runs_issued (S (runs_issued w)) w).

Definition qualified (schema name : string) : string := schema +:+ "." +:+ name.

Definition missing_table (key : string) : exn :=
  PyExn "ProgrammingError" ("Table '" +:+ key +:+ "' does not exist").

(* snowflake.connector.pandas_tools.write_pandas, as the loader uses it:
   it answers (success, num_chunks, num_rows, output).  When the
   warehouse takes the frame, its rows go after the rows the table had,
   or replace them when [overwrite] is set; a missing table is created
   only when [auto_create_table] is set. *)
Definition write_pandas (env : Env) (df : loc) (table_name schema : string)
    (auto_create_table overwrite : bool) : M (bool * nat * Z * string) :=
  match write_pandas_answer env with
  | WriteRaises e => raise e
  | Rejected output => ret (false, 1%nat, 0, output)
  | Loaded =>
      do d <- deref df;
      do w <- get_world;
      let key := qualified schema table_name in
      let answer := (true, 1%nat, Z.of_nat (df_len d), "") in
      match tables w !! key with
      | Some old =>
          modify (set_tables
                    (<[key := (if overwrite then [] else old) ++ df_rows d]> (tables w))) ;;;
          ret answer
      | None =>
          if auto_create_table
          then modify (set_tables (<[key := df_rows d]> (tables w))) ;;; ret answer
          else raise (missing_table key)
      end
  end.

(* self.conn.cursor() *)
Definition conn_cursor : M unit :=
  do w <- get_world;
  match conn w with
  | NoConn => raise (PyExn "AttributeError" "'NoneType' object has no attribute 'cursor'")
  | ConnClosed => raise (PyExn "DatabaseError" "Connection is closed")
  | ConnOpen => ret tt
  end.

(* --------------------------------------------------------------------- *)
(* class SnowflakeLoader                                                  *)
(* --------------------------------------------------------------------- *)

(* SnowflakeLoader(profiles_path): a loader with no connection yet. *)
Definition SnowflakeLoader : M unit := modify (set_conn NoConn).

Definition _get_connection (env : Env) : M unit :=
  do w <- get_world;
  match conn w with
  | ConnOpen => ret tt
  | _ => fault (connect_fault env) ;;; modify (set_conn ConnOpen)
  end.

(* The dictionary load_to_raw returns; 'run_id' and 'chunks' are absent
   from the one of a skipped load. *)
Record LoadResult : Type := mkLoadResult {
  res_run_id : option string;
  res_records_loaded : Z;
  res_status : string;
  res_chunks : option nat
}.

Definition _log_ingest_run (env : Env) (run_id dataset_name table_name : string)
    (records_loaded : Z) (status : string) (error_message : option string) : M unit :=
  try_except
    (conn_cursor ;;;
     fault (insert_fault env) ;;;
     modify (fun w =>
       set_ingest_runs
         (ingest_runs w ++
          [mkRunRecord run_id dataset_name table_name (now env)
                       records_loaded status error_message]) w))
    (fun e => logger_warning ("Failed to log metadata: " +:+ exn_str e)).

Definition is_date_column (col : string) : bool :=
  String.eqb (lower col) "date" || contains "date" (lower col).

Definition load_to_raw (env : Env) (df : loc) (table_name dataset_name : string)
    (create_table : bool) : M LoadResult :=
  do d <- deref df;
  if df_empty d then
    logger_warning ("Empty DataFrame provided for " +:+ table_name) ;;;
    ret (mkLoadResult None 0 "skipped" None)
  else
    _get_connection env ;;;
    do run_id <- generate_run_id;
    do df <- df_copy df;
    (do d <- deref df;
     for_each (df_columns d) (fun col =>
       if is_date_column col then
         do d <- deref df;
         do s <- or_raise (PyExn "KeyError" col) (df_get d col);
         if is_datetime64_any_dtype s
         then store df (df_set d col (dt_date_accessor s))
         else ret tt
       else ret tt)) ;;;
    (do d <- deref df; store df (df_set_scalar d "source_run_id" (VStr run_id))) ;;;
    try_except
      (do '(success, num_chunks, num_rows, output) <-
          write_pandas env df table_name "RAW" create_table false;
       if success : bool then
         _log_ingest_run env run_id dataset_name table_name num_rows "completed" None ;;;
         ret (mkLoadResult (Some run_id) num_rows "completed" (Some num_chunks))
       else
         raise (PyExn "Exception" ("Load failed: " +:+ output)))
      (fun e =>
         logger_error ("Error loading to " +:+ table_name +:+ ": " +:+ exn_str e) ;;;
         _log_ingest_run env run_id dataset_name table_name 0 "failed" (Some (exn_str e)) ;;;
         raise e).

Definition update_watermark (env : Env) (dataset_name : string) (watermark_value : value)
  : M unit :=
  try_except
    (conn_cursor ;;;
     fault (merge_fault env) ;;;
     modify (fun w =>
       set_watermarks
         (<[dataset_name := mkWatermark (py_str watermark_value) (now env)]> (watermarks w)) w))
    (fun e => logger_warning ("Failed to update watermark: " +:+ exn_str e)).

Definition get_watermark (env : Env) (dataset_name : string) : M (option string) :=
  try_except
    (conn_cursor ;;;
     fault (select_fault env) ;;;
     do w <- get_world;
     let result := watermarks w !! dataset_name in
     ret (match result with
          | Some row => Some (watermark_value row)
          | None => None
          end))
    (fun e => logger_warning ("Failed to get watermark: " +:+ exn_str e) ;;; ret None).

Definition close : M unit :=
  do w <- get_world;
  match conn w with
  | ConnOpen => modify (set_conn ConnClosed)
  | _ => ret tt
  end.

(* SnowflakeLoader.execute_query, for the statements the gate sends.  The
   warehouse answers COUNT( * ) with one row holding the number of rows of
   the table, and MAX(date) with one row holding the largest date, NULL
   over no rows. *)
Definition date_cells (rows : list Row) : list value :=
  (fun r : Row => default VNone (assoc "date" r)) <$> rows.

Definition one_row (col : string) (ty : dtype) (v : value) : DataFrame :=
  mkDataFrame 1 [(col, mkSeries ty [v])].

Definition execute_query (env : Env) (query : Query) : M DataFrame :=
  _get_connection env ;;;
  fault (query_fault env query) ;;;
  do w <- get_world;
  let missing t := PyExn "ProgrammingError" ("Object '" +:+ t +:+ "' does not exist") in
  match query with
  | SelectCount t =>
      do rows <- or_raise (missing t) (tables w !! t);
      ret (one_row "COUNT" int64 (VInt (Z.of_nat (length rows))))
  | SelectMaxDate t =>
      do rows <- or_raise (missing t) (tables w !! t);
      do m <- or_raise (PyExn "ProgrammingError" "Invalid argument types for function 'MAX'")
                       (max_go VNone (date_cells rows));
      ret (one_row "MAX_DATE" object m)
  end.

(* series.iloc[0] *)
Definition iloc0 (s : Series) : M value :=
  or_raise (PyExn "IndexError" "single positional indexer is out-of-bounds")
           (s_values s !! 0%nat).

(* df[col] as an expression *)
Definition getitem (d : DataFrame) (col : string) : M Series :=
  or_raise (PyExn "KeyError" col) (df_get d col).

Definition is_digit (c : ascii) : bool :=
  let n := Ascii.nat_of_ascii c in ((48 <=? n) && (n <=? 57))%nat.

Fixpoint digits_go (acc : Z) (s : string) : option Z :=
  match s with
  | EmptyString => Some acc
  | String c s' =>
      if is_digit c
      then digits_go (10 * acc + Z.of_nat (Ascii.nat_of_ascii c - 48)) s'
      else None
  end.

(* A non-empty run of decimal digits of length between lo and hi. *)
Definition number (lo hi : nat) (s : string) : option Z :=
  let n := String.length s in
  if ((lo <=? n) && (n <=? hi))%nat then digits_go 0 s else None.

Fixpoint split_dash (cur : string) (s : string) : list string :=
  match s with
  | EmptyString => [cur]
  | String c s' =>
      if Ascii.eqb c "-"%char
      then cur :: split_dash EmptyString s'
      else split_dash (cur +:+ String c EmptyString) s'
  end.

Definition days_in_month (y m : Z) : Z :=
  if (m =? 2) && is_leap y then 29
  else nth (Z.to_nat m) [0; 31; 28; 31; 30; 31; 30; 31; 31; 30; 31; 30; 31] 0.

(* datetime.strptime(s, '%Y-%m-%d').date(): four digits, one or two
   digits, one or two digits, which name a day of the calendar; [None]
   where Python raises ValueError. *)
Definition strptime_ymd (s : string) : option date :=
  match split_dash EmptyString s with
  | [ys; ms; ds] =>
      match number 4 4 ys, number 1 2 ms, number 1 2 ds with
      | Some y, Some m, Some d =>
          if (1 <=? y) && (1 <=? m) && (m <=? 12) && (1 <=? d) && (d <=? days_in_month y m)
          then Some (mkdate y m d)
          else None
      | _, _, _ => None
      end
  | _ => None
  end.

(* --------------------------------------------------------------------- *)
(* dags/finance_pipeline_dag.py                                           *)
(* --------------------------------------------------------------------- *)

(* timedelta(minutes=m), in seconds *)
Definition timedelta_minutes (m : Z) : Z := m * 60.

Record DefaultArgs : Type := mkDefaultArgs {
  owner : string;
  depends_on_past : bool;
  email_on_failure : bool;
  email_on_retry : bool;
  retries : nat;
  retry_delay : Z
}.

Definition default_args : DefaultArgs :=
  mkDefaultArgs "finance_team" false false false 2 (timedelta_minutes 5).

(* load_ticker_config() followed by the extractor: the record producer.
   Its frame is a new object. *)
Definition extract (env : Env) : M loc :=
  match extracted env with
  | inl e => raise e
  | inr d => alloc d
  end.

(* context['task_instance'].xcom_push(key=..., value=...) *)
Definition xcom_push (key : string) (v : Z) : M unit :=
  modify (fun w => set_xcom (xcom w ++ [(key, v)]) w).

Definition type_error : exn :=
  PyExn "TypeError" "'>' not supported between instances".

(* The body the price and benchmark tasks share after extraction:
     result = loader.load_to_raw(df, table, dataset, create_table=False)
     if not df.empty:
         max_date = df['date'].max()
         loader.update_watermark(dataset, str(max_date)) *)
Definition load_and_advance (env : Env) (df : loc) (table dataset : string) : M LoadResult :=
  do result <- load_to_raw env df table dataset false;
  do d <- deref df;
  (if negb (df_empty d) then
     do col <- getitem d "date";
     do max_date <- or_raise type_error (series_max col);
     update_watermark env dataset (VStr (py_str max_date))
   else ret tt) ;;;
  ret result.

Definition extract_and_load_prices (env : Env) : M unit :=
  do df <- extract env;
  SnowflakeLoader ;;;
  try_finally
    (do result <- load_and_advance env df "STOCK_PRICES_DAILY" "stock_prices";
     xcom_push "records_loaded" (res_records_loaded result))
    close.

Definition extract_and_load_company_info (env : Env) : M unit :=
  do df <- extract env;
  SnowflakeLoader ;;;
  try_finally
    (do result <- load_to_raw env df "COMPANY_INFO" "company_info" false;
     xcom_push "records_loaded" (res_records_loaded result))
    close.

Definition extract_and_load_benchmarks (env : Env) : M unit :=
  do df <- extract env;
  SnowflakeLoader ;;;
  try_finally
    (do result <- load_and_advance env df "BENCHMARK_SERIES_DAILY" "benchmark_series";
     xcom_push "records_loaded" (res_records_loaded result))
    close.

Definition checks : list (string * string) :=
  [("COBRA.STOCK_PRICES_DAILY", "stock prices");
   ("COBRA.COMPANY_INFO", "company info");
   ("COBRA.BENCHMARK_SERIES_DAILY", "benchmark series")].

(* count == 0 *)
Definition eq_zero (v : value) : bool :=
  match v with
  | VInt z => z =? 0
  | _ => false
  end.

(* datetime.now().date() - max_date, in days *)
Definition date_sub (today : date) (v : value) : M Z :=
  match v with
  | VDate d => ret (days_between today d)
  | _ => raise (PyExn "TypeError" "unsupported operand type(s) for -")
  end.

(* The loop over [checks]; [results] is the dictionary filled so far. *)
Fixpoint check_counts (env : Env) (cs : list (string * string))
    (results : list (string * value)) : M (list (string * value)) :=
  match cs with
  | [] => ret results
  | (table, name) :: cs' =>
      do result <- execute_query env (SelectCount table);
      do count <- (if negb (df_empty result)
                   then do s <- getitem result "COUNT"; iloc0 s
                   else ret (VInt 0));
      let results := assoc_set name count results in
      if eq_zero count
      then raise (PyExn "ValueError" ("No data found in " +:+ table))
      else check_counts env cs' results
  end.

Definition verify_data_quality (env : Env) : M (list (string * value)) :=
  SnowflakeLoader ;;;
  try_finally
    (do results <- check_counts env checks [];
     do result <- execute_query env (SelectMaxDate "COBRA.STOCK_PRICES_DAILY");
     (if negb (df_empty result) then
        do s <- getitem result "MAX_DATE";
        do max_date <- iloc0 s;
        do max_date <- match max_date with
                       | VStr text =>
                           do d <- or_raise (PyExn "ValueError"
                                               ("time data does not match format '%Y-%m-%d'"))
                                            (strptime_ymd text);
                           ret (VDate d)
                       | v => ret v
                       end;
        do days_old <- date_sub (dt_date (now env)) max_date;
        if 7 <? days_old
        then logger_warning ("Data is " +:+ pretty days_old +:+ " days old - may need refresh")
        else ret tt
      else ret tt) ;;;
     ret results)
    close.

(* The operators of the DAG.  A keyword argument an operator is not given
   is taken from default_args. *)
Inductive operator : Type :=
| EmptyOperator
| PythonOperator (python_callable : Env -> M unit)
| BashOperator (bash_command : string).

Record Task : Type := mkTask {
  task_id : string;
  task_operator : operator;
  retries_kw : option nat;
  retry_delay_kw : option Z
}.

Definition start : Task := mkTask "start" EmptyOperator None None.

Definition extract_prices : Task :=
  mkTask "extract_yahoo_prices" (PythonOperator extract_and_load_prices) None None.

Definition extract_company : Task :=
  mkTask "extract_yahoo_company_info" (PythonOperator extract_and_load_company_info) None None.

Definition extract_benchmarks : Task :=
  mkTask "extract_yahoo_benchmark_series" (PythonOperator extract_and_load_benchmarks) None None.

Definition verify : Task :=
  mkTask "verify_data_quality"
         (PythonOperator (fun env => verify_data_quality env ;;; ret tt)) None None.

Definition transform_dbt : Task :=
  mkTask "transform_dbt"
         (BashOperator
            ("cd /usr/local/airflow/dbt_finance && "
             +:+ "dbt run --profiles-dir /usr/local/airflow/include/finance_analysis_pipeline && "
             +:+ "dbt test --profiles-dir /usr/local/airflow/include/finance_analysis_pipeline"))
         None None.

Definition end_ : Task := mkTask "end" EmptyOperator None None.

Definition dag_tasks : list Task :=
  [start; extract_prices; extract_company; extract_benchmarks; verify; transform_dbt; end_].

Definition task_retries (t : Task) : nat :=
  default (retries default_args) (retries_kw t).

Definition task_retry_delay (t : Task) : Z :=
  default (retry_delay default_args) (retry_delay_kw t).

(* ups >> downs : every task of [downs] is set downstream of every task
   of [ups]. *)
Definition rshift (ups downs : list Task) : list (string * string) :=
  u ← ups; d ← downs; [(task_id u, task_id d)].

(* start >> [extract_prices, extract_company, extract_benchmarks]
         >> verify >> transform_dbt >> end *)
Definition dependencies : list (string * string) :=
  rshift [start] [extract_prices; extract_company; extract_benchmarks]
  ++ rshift [extract_prices; extract_company; extract_benchmarks] [verify]
  ++ rshift [verify] [transform_dbt]
  ++ rshift [transform_dbt] [end_].

Definition upstream (t : string) : list string :=
  (filter (fun e : string * string => e.2 = t) dependencies).*1.

(* --------------------------------------------------------------------- *)
(* The orchestrator                                                       *)
(* --------------------------------------------------------------------- *)

Inductive node_status : Type :=
| pending
| running
| succeeded
| failed
| upstream_failed.

(* A node of the running graph: its status and how many times it has
   been started. *)
Record node : Type := mkNode { node_st : node_status; tries : nat }.

Definition graph_state : Type := string -> node.

Definition set_node (t : string) (n : node) (s : graph_state) : graph_state :=
  fun t' => if String.eqb t' t then n else s t'.

Definition initial : graph_state := fun _ => mkNode pending 0.

Definition task_ids : list string := task_id <$> dag_tasks.

Definition retries_of (t : string) : nat :=
  match List.find (fun k => String.eqb (task_id k) t) dag_tasks with
  | Some k => task_retries k
  | None => 0%nat
  end.

Definition is_failed (st : node_status) : bool :=
  match st with
  | failed | upstream_failed => true
  | _ => false
  end.

(** Modelled from the spec: the engine that runs the task graph (Airflow's
    scheduler) is not among the sources; only the DAG that it runs is.
    Section 4.1: a node is executed "after all of its dependencies have
    reached succeeded"; "a node whose dependency reaches failed or
    upstream_failed transitions immediately to upstream_failed without
    running"; a node that fails is started again until its retries are
    used up, and is then marked failed. *)
Inductive step : graph_state -> graph_state -> Prop :=
| step_start (t : string) (s : graph_state) :
    t ∈ task_ids ->
    node_st (s t) = pending ->
    Forall (fun u => node_st (s u) = succeeded) (upstream t) ->
    step s (set_node t (mkNode running (S (tries (s t)))) s)
| step_succeed (t : string) (s : graph_state) :
    node_st (s t) = running ->
    step s (set_node t (mkNode succeeded (tries (s t))) s)
| step_retry (t : string) (s : graph_state) :
    node_st (s t) = running ->
    (tries (s t) <= retries_of t)%nat ->
    step s (set_node t (mkNode pending (tries (s t))) s)
| step_fail (t : string) (s : graph_state) :
    node_st (s t) = running ->
    (retries_of t < tries (s t))%nat ->
    step s (set_node t (mkNode failed (tries (s t))) s)
| step_upstream_failed (t : string) (s : graph_state) :
    t ∈ task_ids ->
    node_st (s t) = pending ->
    Exists (fun u => is_failed (node_st (s u)) = true) (upstream t) ->
    step s (set_node t (mkNode upstream_failed (tries (s t))) s).

(* A state some run of the graph passes through. *)
Definition reachable (s : graph_state) : Prop := rtc step initial s.

(* The node has been started at least once. *)
Definition started (s : graph_state) (t : string) : Prop := (0 < tries (s t))%nat.

(* The identifiers of the three extraction nodes. *)
Definition extraction_ids : list string :=
  task_id <$> [extract_prices; extract_company; extract_benchmarks].

(* The states the moves of the orchestrator lead to. *)
Definition start_node (t : string) (s : graph_state) : graph_state :=
  set_node t (mkNode running (S (tries (s t)))) s.

Definition succeed_node (t : string) (s : graph_state) : graph_state :=
  set_node t (mkNode succeeded (tries (s t))) s.

Definition retry_node (t : string) (s : graph_state) : graph_state :=
  set_node t (mkNode pending (tries (s t))) s.

Definition fail_node (t : string) (s : graph_state) : graph_state :=
  set_node t (mkNode failed (tries (s t))) s.

Definition run_node (t : string) (s : graph_state) : graph_state :=
  succeed_node t (start_node t s).

(* A run in which the three extractions have succeeded and the gate is
   running. *)
Definition gate_running : graph_state :=
  start_node "verify_data_quality"
    (run_node "extract_yahoo_benchmark_series"
       (run_node "extract_yahoo_company_info"
          (run_node "extract_yahoo_prices" (run_node "start" initial)))).

(* The same run after the gate has failed once and was started again. *)
Definition gate_retried : graph_state :=
  start_node "verify_data_quality" (retry_node "verify_data_quality" gate_running).

(* A run in which the price extraction has failed for good. *)
Definition prices_failed : graph_state :=
  let t := "extract_yahoo_prices" in
  fail_node t (start_node t (retry_node t (start_node t (retry_node t
    (start_node t (run_node "start" initial)))))).

(* What holds of every state a run passes through; see [reachable_inv]. *)
Record graph_inv (s : graph_state) : Prop := mkGraphInv {
  inv_started : forall t,
    node_st (s t) = running \/ node_st (s t) = succeeded \/ node_st (s t) = failed ->
    started s t;
  inv_upstream : forall t,
    started s t -> Forall (fun u => node_st (s u) = succeeded) (upstream t);
  inv_tries : forall t, (tries (s t) <= S (retries_of t))%nat;
  inv_pending : forall t,
    node_st (s t) = pending \/ node_st (s t) = upstream_failed ->
    (tries (s t) <= retries_of t)%nat;
  inv_failed : forall t, node_st (s t) = failed -> tries (s t) = S (retries_of t)
}.

(* --------------------------------------------------------------------- *)
(* Sequences of watermark advances                                        *)
(* --------------------------------------------------------------------- *)

(* An advance: what the outside answers during the call, the dataset and
   the value. *)
Definition Advance : Type := Env * string * value.

(* The calls made one after the other. *)
Definition advance_all (ops : list Advance) : M unit :=
  for_each ops (fun op => update_watermark op.1.1 op.1.2 op.2).

(* The MERGE of an advance goes through: the connection is open and the
   statement does not fail. *)
Definition advance_ok (c : conn_state) (env : Env) : bool :=
  match c, merge_fault env with
  | ConnOpen, None => true
  | _, _ => false
  end.

(* The text of the last advance of [dataset] that went through, [cur]
   when there is none. *)
Fixpoint last_advanced (c : conn_state) (dataset : string) (ops : list Advance)
    (cur : option string) : option string :=
  match ops with
  | [] => cur
  | (env, ds, v) :: ops' =>
      last_advanced c dataset ops'
        (if advance_ok c env && String.eqb ds dataset then Some (py_str v) else cur)
  end.

(* --------------------------------------------------------------------- *)
(* Sample data                                                            *)
(* --------------------------------------------------------------------- *)

Definition jan (d : Z) : date := mkdate 2024 1 d.

Definition midnight (d : date) : value := VTimestamp (mkdatetime d 0).

(* Three price records as the price extractor yields them. *)
Definition prices_batch : DataFrame :=
  mkDataFrame 3
    [("symbol", mkSeries object [VStr "AAPL"; VStr "AAPL"; VStr "MSFT"]);
     ("date", mkSeries datetime64 [midnight (jan 8); midnight (jan 10); midnight (jan 9)]);
     ("close", mkSeries int64 [VInt 185; VInt 186; VInt 375])].

(* Two company records, which carry no date. *)
Definition company_batch : DataFrame :=
  mkDataFrame 2
    [("symbol", mkSeries object [VStr "AAPL"; VStr "MSFT"]);
     ("sector", mkSeries object [VStr "Technology"; VStr "Technology"])].

Definition no_faults (batch : DataFrame) : Env :=
  mkEnv (mkdatetime (jan 15) 7200) (inr batch) None Loaded None None None (fun _ => None).


(* The same, with write_pandas raising. *)
Definition warehouse_down (batch : DataFrame) : Env :=
  mkEnv (mkdatetime (jan 15) 7200) (inr batch) None
        (WriteRaises (PyExn "OperationalError" "Failed to connect to the warehouse"))
        None None None (fun _ => None).

Definition raw_tables : gmap string (list Row) :=
  <["RAW.STOCK_PRICES_DAILY" := []]>
  (<["RAW.COMPANY_INFO" := []]>
  (<["RAW.BENCHMARK_SERIES_DAILY" := []]> ∅)).

(* A warehouse whose tables exist and are empty, and a loader that has not
   connected yet. *)
Definition fresh_world : World :=
  mkWorld [] NoConn raw_tables [] ∅ 0 [] [].

(* The collections the gate monitors, with rows a month old. *)
Definition stale_tables : gmap string (list Row) :=
  <["COBRA.STOCK_PRICES_DAILY" :=
      [[("symbol", VStr "AAPL"); ("date", VDate (mkdate 2023 12 1))];
       [("symbol", VStr "AAPL"); ("date", VDate (mkdate 2023 12 4))]]]>
  (<["COBRA.COMPANY_INFO" := [[("symbol", VStr "AAPL")]]]>
  (<["COBRA.BENCHMARK_SERIES_DAILY" :=
      [[("series_ticker", VStr "^GSPC"); ("date", VDate (mkdate 2023 12 4))]]]> ∅)).


(* The same with no company reference data. *)
Definition no_company_world : World :=
  mkWorld [] NoConn (<["COBRA.COMPANY_INFO" := []]> stale_tables) [] ∅ 0 [] [].

(* A loader that is connected. *)
Definition connected_world : World :=
  mkWorld [] ConnOpen raw_tables [] ∅ 0 [] [].

(* The same with the caller's batch at location 0. *)
Definition world_with (batch : DataFrame) : World :=
  mkWorld [batch] NoConn raw_tables [] ∅ 0 [] [].

(* --------------------------------------------------------------------- *)
(* What the loader's loops compute, as plain functions                    *)
(* --------------------------------------------------------------------- *)

(* One turn of the loop over df.columns in load_to_raw. *)
Definition normalize_column (d : DataFrame) (col : string) : DataFrame :=
  if is_date_column col then
    match df_get d col with
    | Some s => if is_datetime64_any_dtype s then df_set d col (dt_date_accessor s) else d
    | None => d
    end
  else d.

(* The whole loop. *)
Definition normalize_dates (d : DataFrame) : DataFrame :=
  foldl normalize_column d (df_columns d).

(* The frame load_to_raw hands to write_pandas: dates normalized, then
   the run identifier in every row. *)
Definition prepared (run_id : string) (d : DataFrame) : DataFrame :=
  df_set_scalar (normalize_dates d) "source_run_id" (VStr run_id).


(* The try/except block of load_to_raw, from write_pandas on. *)
Definition write_and_record (env : Env) (run_id : string) (df : loc)
    (table_name dataset_name : string) (create_table : bool) : M LoadResult :=
  try_except
    (do '(success, num_chunks, num_rows, output) <-
        write_pandas env df table_name "RAW" create_table false;
     if success : bool then
       _log_ingest_run env run_id dataset_name table_name num_rows "completed" None ;;;
       ret (mkLoadResult (Some run_id) num_rows "completed" (Some num_chunks))
     else
       raise (PyExn "Exception" ("Load failed: " +:+ output)))
    (fun e =>
       logger_error ("Error loading to " +:+ table_name +:+ ": " +:+ exn_str e) ;;;
       _log_ingest_run env run_id dataset_name table_name 0 "failed" (Some (exn_str e)) ;;;
       raise e).

(* The world at the moment write_pandas is called. *)
Definition at_write (w : World) (d : DataFrame) : World :=
  set_heap (heap w ++ [prepared (run_token (runs_issued w)) d])
    (set_runs_issued (S (runs_issued w)) (set_conn ConnOpen w)).

(* The connection is open or can be opened. *)
Definition connects (env : Env) (w : World) : Prop :=
  conn w = ConnOpen \/ connect_fault env = None.

(* The ledger after one attempt to record [r], on an open connection. *)
Definition recorded (env : Env) (r : RunRecord) (w : World) : World :=
  match insert_fault env with
  | None => set_ingest_runs (ingest_runs w ++ [r]) w
  | Some e => set_log (log w ++ [(WARNING, "Failed to log metadata: " +:+ exn_str e)]) w
  end.

(* The frame behind a location. *)
Definition frame_at (w : World) (l : loc) : DataFrame := default empty_frame (heap w !! l).

(* The exception a load ends with when the warehouse does not take the
   frame: write_pandas raises, or it reports failure and load_to_raw
   raises. *)
Definition write_error (env : Env) (w : World) (table_name : string) (create_table : bool)
  : option exn :=
  match write_pandas_answer env with
  | WriteRaises e => Some e
  | Rejected output => Some (PyExn "Exception" ("Load failed: " +:+ output))
  | Loaded =>
      match tables w !! qualified "RAW" table_name with
      | Some _ => None
      | None => if create_table then None
                else Some (missing_table (qualified "RAW" table_name))
      end
  end.

Definition failed_run (env : Env) (run_id dataset_name table_name : string) (e : exn)
  : RunRecord :=
  mkRunRecord run_id dataset_name table_name (now env) 0 "failed" (Some (exn_str e)).

Definition completed_run (env : Env) (run_id dataset_name table_name : string) (n : Z)
  : RunRecord :=
  mkRunRecord run_id dataset_name table_name (now env) n "completed" None.


(* The stored watermark text of a dataset, if any. *)
Definition stored (w : World) (dataset : string) : option string :=
  watermark_value <$> watermarks w !! dataset.

(* --------------------------------------------------------------------- *)
(* Proof automation                                                       *)
(* --------------------------------------------------------------------- *)

(* The moves of the sample runs; the side conditions are decided by
   evaluation. *)
Ltac in_graph := apply list_elem_of_In; vm_compute; tauto.

Ltac by_start :=
  eapply rtc_r;
  [ | apply step_start;
      [ in_graph | reflexivity | unfold upstream; vm_compute filter;
                                  cbn [fmap list_fmap fst]; repeat constructor ] ].

Ltac by_succeed := eapply rtc_r; [ | apply step_succeed; reflexivity ].

Ltac by_retry :=
  eapply rtc_r; [ | apply step_retry; [ reflexivity | vm_compute; lia ] ].

Ltac by_fail :=
  eapply rtc_r; [ | apply step_fail; [ reflexivity | vm_compute; lia ] ].

(* --------------------------------------------------------------------- *)
(* scripts/run_extraction.py                                              *)
(* --------------------------------------------------------------------- *)

Fixpoint min_go (best : value) (l : list value) : option value :=
  match l with
  | [] => Some best
  | VNone :: l' => min_go best l'
  | v :: l' =>
      match best with
      | VNone => min_go v l'
      | _ =>
          match value_ltb v best with
          | Some true => min_go v l'
          | Some false => min_go best l'
          | None => None
          end
      end
  end.

(* series.min(), nulls skipped; [None] where Python raises TypeError. *)
Definition series_min (s : Series) : option value := min_go VNone (s_values s).

(* The f-string f"Date range: {df['date'].min()} to {df['date'].max()}":
   its value is logged at level info and is not kept, but the lookups and
   the comparisons are made. *)
Definition date_range (d : DataFrame) : M unit :=
  do col <- getitem d "date";
  do lo <- or_raise type_error (series_min col);
  do col <- getitem d "date";
  do hi <- or_raise type_error (series_max col);
  ret tt.

(* The stand-alone price job and benchmark job.  print and logger.info
   are left out; the company job and main(), whose df[[...]] raises an
   exception that is pandas' own to word, are not modelled. *)
Definition script_extract_and_load_prices (env : Env) : M unit :=
  do df <- extract env;
  do d <- deref df;
  if df_empty d then
    logger_error "No price data extracted!"
  else
    date_range d ;;;
    SnowflakeLoader ;;;
    try_finally
      (do result <- load_and_advance env df "STOCK_PRICES_DAILY" "stock_prices";
       ret tt)
      close.

Definition script_extract_and_load_benchmarks (env : Env) : M unit :=
  do df <- extract env;
  do d <- deref df;
  if df_empty d then
    logger_error "No benchmark data extracted!"
  else
    date_range d ;;;
    (do s <- getitem d "series_ticker"; ret tt) ;;;
    SnowflakeLoader ;;;
    try_finally
      (do result <- load_and_advance env df "BENCHMARK_SERIES_DAILY" "benchmark_series";
       ret tt)
      close.

(* --------------------------------------------------------------------- *)
(* src/common/profiles_reader.py                                          *)
(* --------------------------------------------------------------------- *)

(* A YAML document as yaml.safe_load returns it: a scalar or a mapping.
   Sequences, which profiles.yml has none of at the places read here, are
   left out. *)
#[warnings="-register-all"]
Inductive yaml : Type :=
| YScalar (v : value)
| YMap (items : list (string * yaml)).

(* A file: its bytes, and what yaml.safe_load answers on it. *)
Record File : Type := mkFile {
  file_bytes : string;
  file_yaml : outcome yaml
}.

(* The regular files there are, by the path they are opened with. *)
Abbreviation FileSystem := (gmap string File).

(* The file a path names; the empty path names none. *)
Definition file_at (fs : FileSystem) (path : string) : option File :=
  if String.eqb path EmptyString then None else fs !! path.

(* os.path.exists *)
Definition path_exists (fs : FileSystem) (path : string) : bool :=
  match file_at fs path with
  | Some _ => true
  | None => false
  end.

Definition py_type (v : value) : string :=
  match v with
  | VNone => "NoneType"
  | VStr _ => "str"
  | VInt _ => "int"
  | VDate _ => "datetime.date"
  | VTimestamp _ => "datetime.datetime"
  end.

(* key in y.  The wording of the interpreter's own messages, here and
   below, changes with its version; the properties use their class. *)
Definition yaml_in (key : string) (y : yaml) : outcome bool :=
  match y with
  | YMap items =>
      Ret (match assoc key items with Some _ => true | None => false end)
  | YScalar (VStr s) => Ret (contains key s)
  | YScalar v =>
      Raise (PyExn "TypeError" ("argument of type '" +:+ py_type v +:+ "' is not iterable"))
  end.

(* y[key] *)
Definition yaml_getitem (key : string) (y : yaml) : outcome yaml :=
  match y with
  | YMap items =>
      match assoc key items with
      | Some v => Ret v
      | None => Raise (PyExn "KeyError" key)
      end
  | YScalar (VStr _) => Raise (PyExn "TypeError" "string indices must be integers")
  | YScalar v =>
      Raise (PyExn "TypeError" ("'" +:+ py_type v +:+ "' object is not subscriptable"))
  end.

(* y.get(key, dflt) *)
Definition yaml_get (key : string) (dflt : yaml) (y : yaml) : outcome yaml :=
  match y with
  | YMap items => Ret (default dflt (assoc key items))
  | YScalar v =>
      Raise (PyExn "AttributeError"
               ("'" +:+ py_type v +:+ "' object has no attribute 'get'"))
  end.

(* bool(y) *)
Definition truthy (y : yaml) : bool :=
  match y with
  | YScalar VNone => false
  | YScalar (VStr s) => negb (String.eqb s EmptyString)
  | YScalar (VInt z) => negb (z =? 0)
  | YScalar _ => true
  | YMap items => negb (length items =? 0)%nat
  end.

Definition obind {A B : Type} (o : outcome A) (k : A -> outcome B) : outcome B :=
  match o with
  | Ret a => k a
  | Raise e => Raise e
  end.

Notation "'try' x <- o ; k" := (obind o (fun x => k))
  (at level 10, x name, o at level 100, k at level 200) : py_scope.

Definition none : yaml := YScalar VNone.

(* The dictionary read_profiles returns. *)
Record ProfileConfig : Type := mkProfileConfig {
  cfg_account : yaml;
  cfg_user : yaml;
  cfg_role : yaml;
  cfg_warehouse : yaml;
  cfg_database : yaml;
  cfg_schema : yaml;
  cfg_private_key_path : yaml;
  cfg_type : yaml;
  cfg_threads : yaml
}.

Definition read_profiles (fs : FileSystem) (profiles_path profile_name target : string)
  : outcome ProfileConfig :=
  match file_at fs profiles_path with
  | None => Raise (PyExn "FileNotFoundError" ("Profiles file not found: " +:+ profiles_path))
  | Some f =>
      try profiles <- file_yaml f;
      try known <- yaml_in profile_name profiles;
      if negb known then
        Raise (PyExn "ValueError"
                 ("Profile '" +:+ profile_name +:+ "' not found in " +:+ profiles_path))
      else
        try profile <- yaml_getitem profile_name profiles;
        let target_missing :=
          Raise (PyExn "ValueError"
                   ("Target '" +:+ target +:+ "' not found in profile '"
                    +:+ profile_name +:+ "'")) in
        try has_outputs <- yaml_in "outputs" profile;
        if negb has_outputs then target_missing
        else
          try outputs <- yaml_getitem "outputs" profile;
          try has_target <- yaml_in target outputs;
          if negb has_target then target_missing
          else
            try outputs <- yaml_getitem "outputs" profile;
            try output_config <- yaml_getitem target outputs;
            try account <- yaml_get "account" none output_config;
            try user <- yaml_get "user" none output_config;
            try role <- yaml_get "role" none output_config;
            try warehouse <- yaml_get "warehouse" none output_config;
            try database <- yaml_get "database" none output_config;
            try schema <- yaml_get "schema" none output_config;
            try private_key_path <- yaml_get "private_key_path" none output_config;
            try type <- yaml_get "type" none output_config;
            try threads <- yaml_get "threads" (YScalar (VInt 1)) output_config;
            Ret (mkProfileConfig account user role warehouse database schema
                                 private_key_path type threads)
  end.

(* s.replace(old, new) for a non-empty [old]: the occurrences of [old]
   are replaced from the left, without overlap.  [skip] counts the
   characters of an occurrence still to pass over. *)
Fixpoint replace_go (old new : string) (skip : nat) (s : string) : string :=
  match s with
  | EmptyString => EmptyString
  | String c s' =>
      match skip with
      | S k => replace_go old new k s'
      | O =>
          if String.prefix old s
          then new +:+ replace_go old new (String.length old - 1) s'
          else String c (replace_go old new 0 s')
      end
  end.

Definition replace (old new s : string) : string := replace_go old new 0 s.

(* The dictionary get_snowflake_connection_params returns. *)
Record ConnectionParams : Type := mkConnectionParams {
  par_account : yaml;
  par_user : yaml;
  par_role : yaml;
  par_warehouse : yaml;
  par_database : yaml;
  par_schema : yaml;
  par_private_key : option string
}.

(* open(path, 'rb').read() of a file that exists *)
Definition read_bytes (fs : FileSystem) (path : string) : option string :=
  file_bytes <$> file_at fs path.

Definition get_snowflake_connection_params (fs : FileSystem)
    (profiles_path profile_name : string) : outcome ConnectionParams :=
  try config <- read_profiles fs profiles_path profile_name "dev";
  try private_key_bytes <-
    (if truthy (cfg_private_key_path config) then
       match cfg_private_key_path config with
       | YScalar (VStr private_key_path) =>
           let local_path := replace "/usr/local/airflow/" EmptyString private_key_path in
           if path_exists fs private_key_path then
             Ret (read_bytes fs private_key_path)
           else if path_exists fs local_path then
             Ret (read_bytes fs local_path)
           else
             Raise (PyExn "FileNotFoundError"
                      ("Private key not found at " +:+ private_key_path
                       +:+ " or " +:+ local_path))
       | YScalar v =>
           Raise (PyExn "AttributeError"
                    ("'" +:+ py_type v +:+ "' object has no attribute 'replace'"))
       | YMap _ =>
           Raise (PyExn "AttributeError" "'dict' object has no attribute 'replace'")
       end
     else Ret None);
  Ret (mkConnectionParams (cfg_account config) (cfg_user config) (cfg_role config)
         (cfg_warehouse config) (cfg_database config) (cfg_schema config)
         private_key_bytes).

(* type(e).__name__ *)
Definition exn_class (e : exn) : string :=
  match e with PyExn cls _ => cls end.

(* The world a task callable of the DAG starts its try block in, once
   the record producer has yielded [d]: the frame is a new object and the
   loader is new. *)
Definition task_start (w : World) (d : DataFrame) : World :=
  set_conn NoConn (set_heap (heap w ++ [d]) w).

(* What one call of load_to_raw adds to the ledger, given the record it
   tries to insert. *)
Definition ledger_entry (env : Env) (r : RunRecord) : list RunRecord :=
  match insert_fault env with
  | None => [r]
  | Some _ => []
  end.



(* --------------------------------------------------------------------- *)
(* More sample data                                                       *)
(* --------------------------------------------------------------------- *)

(* The outside when Snowflake cannot be reached. *)
Definition no_connection (batch : DataFrame) : Env :=
  mkEnv (mkdatetime (jan 15) 7200) (inr batch)
        (Some (PyExn "OperationalError" "Could not connect to Snowflake backend"))
        Loaded None None None (fun _ => None).

(* Price records with no date column. *)
Definition undated_batch : DataFrame :=
  mkDataFrame 2
    [("symbol", mkSeries object [VStr "AAPL"; VStr "MSFT"]);
     ("close", mkSeries int64 [VInt 185; VInt 375])].


Definition dev_output : yaml :=
  YMap [("type", YScalar (VStr "snowflake"));
        ("account", YScalar (VStr "ab12345"));
        ("user", YScalar (VStr "loader"));
        ("private_key_path", YScalar (VStr "/usr/local/airflow/include/keys/rsa_key.p8"))].

Definition profiles_doc : yaml :=
  YMap [("finance_analysis_pipeline",
         YMap [("target", YScalar (VStr "dev"));
               ("outputs", YMap [("dev", dev_output)])])].

Definition profiles_file : File := mkFile "finance_analysis_pipeline: ..." (Ret profiles_doc).

Definition key_file (bytes : string) : File :=
  mkFile bytes (Raise (PyExn "YAMLError" "not a YAML document")).

(* A checkout on a workstation: the key is at the local path only. *)
Definition local_fs : FileSystem :=
  <["profiles.yml" := profiles_file]>
  (<["include/keys/rsa_key.p8" := key_file "LOCAL KEY"]> ∅).

(* The container: the key is at both paths. *)
Definition container_fs : FileSystem :=
  <["/usr/local/airflow/include/keys/rsa_key.p8" := key_file "CONTAINER KEY"]> local_fs.

(* ===================================================================== *)
(* Properties                                                             *)
(* ===================================================================== *)

Lemma bind_run {A B : Type} (m : M A) (k : A -> M B) (w w' : World) (a : A) :
  m w = (Ret a, w') -> bind m k w = k a w'.
Proof. intros H. unfold bind. by rewrite H. Qed.

Lemma bind_raise {A B : Type} (m : M A) (k : A -> M B) (w w' : World) (e : exn) :
  m w = (Raise e, w') -> bind m k w = (Raise e, w').
Proof. intros H. unfold bind. by rewrite H. Qed.

Lemma set_heap_id w l d : heap w !! l = Some d -> set_heap (<[l := d]> (heap w)) w = w.
Proof.
  intros H. destruct w as [h c t r m n lg x]; simpl in *.
  unfold set_heap; simpl. f_equal. by apply list_insert_id.
Qed.

Lemma assoc_set_names {A} (k : string) (a : A) (l : list (string * A)) :
  k ∈ l.*1 -> (assoc_set k a l).*1 = l.*1.
Proof.
  induction l as [|[k' a'] l IH]; simpl; intros Hin.
  - by apply elem_of_nil in Hin.
  - destruct (String.eqb_spec k k') as [->|Hne]; simpl; [done|].
    f_equal. apply IH. by apply elem_of_cons in Hin as [?|?].
Qed.

Lemma assoc_in_names {A} (k : string) (l : list (string * A)) :
  k ∈ l.*1 -> is_Some (assoc k l).
Proof.
  induction l as [|[k' a'] l IH]; simpl; intros Hin.
  - by apply elem_of_nil in Hin.
  - destruct (String.eqb_spec k k') as [->|Hne]; [eauto|].
    apply IH. by apply elem_of_cons in Hin as [?|?].
Qed.

Lemma assoc_some_names {A} (k : string) (a : A) (l : list (string * A)) :
  assoc k l = Some a -> k ∈ l.*1.
Proof.
  induction l as [|[k' a'] l IH]; simpl; [done|].
  destruct (String.eqb_spec k k') as [->|Hne]; intros H; apply elem_of_cons; auto.
Qed.

Lemma normalize_column_names d col :
  df_columns (normalize_column d col) = df_columns d.
Proof.
  unfold normalize_column. destruct (is_date_column col); [|done].
  destruct (df_get d col) as [s|] eqn:E; [|done].
  destruct (is_datetime64_any_dtype s); [|done].
  apply assoc_set_names. by eapply assoc_some_names.
Qed.

Lemma normalize_column_len d col :
  index_len (normalize_column d col) = index_len d.
Proof.
  unfold normalize_column. destruct (is_date_column col); [|done].
  destruct (df_get d col) as [s|]; [|done].
  by destruct (is_datetime64_any_dtype s).
Qed.

Lemma foldl_normalize_names cols d :
  df_columns (foldl normalize_column d cols) = df_columns d.
Proof.
  revert d. induction cols as [|c cols IH]; intros d; simpl; [done|].
  by rewrite IH, normalize_column_names.
Qed.

Lemma foldl_normalize_len cols d :
  index_len (foldl normalize_column d cols) = index_len d.
Proof.
  revert d. induction cols as [|c cols IH]; intros d; simpl; [done|].
  by rewrite IH, normalize_column_len.
Qed.

Lemma prepared_len rid d : df_len (prepared rid d) = df_len d.
Proof. unfold prepared, normalize_dates, df_len. simpl. apply foldl_normalize_len. Qed.

(* The loop of load_to_raw over the columns of the object at [l] leaves
   there what [normalize_column] computes, touches nothing else, and
   does not raise. *)
Lemma normalize_loop (l : loc) (cols : list string) : forall (d : DataFrame) (w : World),
  heap w !! l = Some d ->
  cols ⊆ df_columns d ->
  for_each cols (fun col =>
    if is_date_column col then
      do d <- deref l;
      do s <- or_raise (PyExn "KeyError" col) (df_get d col);
      if is_datetime64_any_dtype s
      then store l (df_set d col (dt_date_accessor s))
      else ret tt
    else ret tt) w
  = (Ret tt, set_heap (<[l := foldl normalize_column d cols]> (heap w)) w).
Proof.
  set (body := fun col : string => _).
  induction cols as [|c cols IH]; intros d w Hl Hsub; simpl.
  - unfold ret. by rewrite set_heap_id.
  - assert (Hc : c ∈ df_columns d) by (apply Hsub; apply elem_of_cons; by left).
    assert (Hcols : cols ⊆ df_columns d).
    { intros x Hx. apply Hsub. apply elem_of_cons. by right. }
    destruct (assoc_in_names c (columns d) Hc) as [s Hs].
    assert (Hbody : body c w
                    = (Ret tt, set_heap (<[l := normalize_column d c]> (heap w)) w)).
    { unfold body, normalize_column.
      destruct (is_date_column c); [|unfold ret; by rewrite set_heap_id].
      assert (Hd : deref l w = (Ret d, w)) by (unfold deref; by rewrite Hl).
      rewrite (bind_run _ _ _ _ _ Hd).
      unfold df_get. rewrite Hs. simpl. unfold bind, ret.
      destruct (is_datetime64_any_dtype s); [done|by rewrite set_heap_id]. }
    rewrite (bind_run _ _ _ _ _ Hbody).
    rewrite (IH (normalize_column d c)).
    + simpl. by rewrite list_insert_insert_eq.
    + simpl. apply list_lookup_insert_eq. by eapply lookup_lt_Some.
    + by rewrite normalize_column_names.
Qed.

Lemma get_connection_connects env w :
  connects env w -> _get_connection env w = (Ret tt, set_conn ConnOpen w).
Proof.
  intros Hc. unfold _get_connection, bind, get_world.
  destruct (conn w) eqn:E.
  - destruct Hc as [Hc|Hc]; [congruence|]. rewrite Hc. reflexivity.
  - unfold ret. destruct w; simpl in *. by subst.
  - destruct Hc as [Hc|Hc]; [congruence|]. rewrite Hc. reflexivity.
Qed.

Lemma load_to_raw_skipped env l table ds ct w :
  df_empty (frame_at w l) = true ->
  load_to_raw env l table ds ct w
  = (Ret (mkLoadResult None 0 "skipped" None),
     set_log (log w ++ [(WARNING, "Empty DataFrame provided for " +:+ table)]) w).
Proof.
  intros He. unfold load_to_raw, bind at 1, deref at 1.
  fold (frame_at w l). by rewrite He.
Qed.

Lemma load_to_raw_prepared env l table ds ct w :
  df_empty (frame_at w l) = false ->
  connects env w ->
  load_to_raw env l table ds ct w
  = write_and_record env (run_token (runs_issued w)) (length (heap w)) table ds ct
      (at_write w (frame_at w l)).
Proof.
  intros He Hc. unfold load_to_raw, bind at 1, deref at 1.
  fold (frame_at w l). rewrite He.
  rewrite (bind_run _ _ _ _ _ (get_connection_connects env w Hc)).
  unfold bind at 1, generate_run_id at 1.
  unfold bind at 1, df_copy at 1, bind at 1, deref at 1, alloc at 1.
  cbn [heap set_runs_issued set_conn set_heap].
  fold (frame_at w l). set (d := frame_at w l). set (l' := length (heap w)).
  change (runs_issued (set_conn ConnOpen w)) with (runs_issued w).
  set (w2 := set_heap _ _).
  assert (Hl' : heap w2 !! l' = Some d).
  { subst w2 l'. simpl. by apply list_lookup_middle. }
  assert (Hd : deref l' w2 = (Ret d, w2)) by (unfold deref; by rewrite Hl').
  unfold bind at 1. unfold bind at 1. rewrite Hd.
  rewrite (normalize_loop l' (df_columns d) d w2 Hl' (reflexivity _)).
  set (w3 := set_heap _ w2).
  assert (Hl3 : heap w3 !! l' = Some (normalize_dates d)).
  { subst w3. simpl. apply list_lookup_insert_eq. by eapply lookup_lt_Some. }
  unfold bind at 1. unfold bind at 1. unfold deref at 1. rewrite Hl3.
  cbn [default from_option]. unfold store at 1, modify at 1.
  unfold write_and_record. f_equal.
  subst w3 w2 l'. unfold at_write, set_heap, set_runs_issued, set_conn. simpl. f_equal.
  rewrite list_insert_insert_eq.
  replace (length (heap w)) with (length (heap w) + 0)%nat by lia.
  by rewrite insert_app_r.
Qed.

Lemma log_ingest_run_open env rid ds table n st em w :
  conn w = ConnOpen ->
  _log_ingest_run env rid ds table n st em w
  = (Ret tt, recorded env (mkRunRecord rid ds table (now env) n st em) w).
Proof.
  intros Hc. unfold _log_ingest_run, try_except, bind, conn_cursor, bind, get_world.
  rewrite Hc. unfold recorded, fault. by destruct (insert_fault env).
Qed.

(* Recording a run never raises, whatever the connection and the ledger do. *)
Lemma log_ingest_run_returns env rid ds table n st em w :
  exists w', _log_ingest_run env rid ds table n st em w = (Ret tt, w').
Proof.
  unfold _log_ingest_run, try_except, bind, conn_cursor, bind, get_world.
  destruct (conn w); simpl; eauto.
  unfold fault. destruct (insert_fault env); simpl; eauto.
Qed.

Lemma conn_recorded env r w : conn (recorded env r w) = conn w.
Proof. unfold recorded. by destruct (insert_fault env). Qed.

Lemma write_and_record_fails env rid l table ds ct w e :
  conn w = ConnOpen ->
  write_error env w table ct = Some e ->
  write_and_record env rid l table ds ct w
  = (Raise e,
     recorded env (failed_run env rid ds table e)
       (set_log (log w ++ [(ERROR, "Error loading to " +:+ table +:+ ": " +:+ exn_str e)]) w)).
Proof.
  intros Hc He. unfold write_and_record, try_except, write_error in *.
  unfold bind at 1, write_pandas.
  destruct (write_pandas_answer env) as [|output|e0].
  - unfold bind at 1, deref at 1, bind at 1, get_world at 1.
    destruct (tables w !! qualified "RAW" table); [done|].
    destruct ct; [done|]. injection He as <-.
    unfold raise at 1, bind at 1, logger_error at 1, modify.
    erewrite bind_run by (apply log_ingest_run_open; exact Hc). done.
  - injection He as <-. unfold ret at 1, raise at 1.
    unfold bind at 1, logger_error at 1, modify.
    erewrite bind_run by (apply log_ingest_run_open; exact Hc). done.
  - injection He as <-. unfold raise at 1.
    unfold bind at 1, logger_error at 1, modify.
    erewrite bind_run by (apply log_ingest_run_open; exact Hc). done.
Qed.

Lemma write_and_record_loads env rid l table ds ct w :
  conn w = ConnOpen ->
  write_error env w table ct = None ->
  let key := qualified "RAW" table in
  let n := Z.of_nat (df_len (frame_at w l)) in
  write_and_record env rid l table ds ct w
  = (Ret (mkLoadResult (Some rid) n "completed" (Some 1%nat)),
     recorded env (completed_run env rid ds table n)
       (set_tables (<[key := default [] (tables w !! key) ++ df_rows (frame_at w l)]> (tables w)) w)).
Proof.
  intros Hc He key n. unfold write_and_record, try_except, write_error in *.
  unfold bind at 1, write_pandas.
  destruct (write_pandas_answer env) as [|output|e0]; [|done|done].
  unfold bind at 1, deref at 1, bind at 1, get_world at 1.
  fold (frame_at w l). fold key in He |- *.
  destruct (tables w !! key) as [old|] eqn:Et.
  - unfold bind at 1, modify at 1, ret at 1.
    erewrite bind_run by (apply log_ingest_run_open; exact Hc). done.
  - destruct ct; [|done].
    unfold bind at 1, modify at 1, ret at 1.
    erewrite bind_run by (apply log_ingest_run_open; exact Hc). done.
Qed.

Lemma load_to_raw_connect_fails env l table ds ct w e :
  df_empty (frame_at w l) = false ->
  conn w <> ConnOpen ->
  connect_fault env = Some e ->
  load_to_raw env l table ds ct w = (Raise e, w).
Proof.
  intros He Hc Hf. unfold load_to_raw, bind at 1, deref at 1.
  fold (frame_at w l). rewrite He.
  unfold bind at 1, _get_connection, bind at 1, get_world.
  destruct (conn w); [|done|]; unfold fault; by rewrite Hf.
Qed.

Lemma connects_dec env w :
  connects env w \/ (conn w <> ConnOpen /\ exists e, connect_fault env = Some e).
Proof.
  unfold connects. destruct (conn w); destruct (connect_fault env); eauto;
    right; split; eauto; discriminate.
Qed.

Lemma heap_recorded env r w : heap (recorded env r w) = heap w.
Proof. unfold recorded. by destruct (insert_fault env). Qed.

Lemma tables_recorded env r w : tables (recorded env r w) = tables w.
Proof. unfold recorded. by destruct (insert_fault env). Qed.

Lemma watermarks_recorded env r w : watermarks (recorded env r w) = watermarks w.
Proof. unfold recorded. by destruct (insert_fault env). Qed.

Lemma runs_issued_recorded env r w : runs_issued (recorded env r w) = runs_issued w.
Proof. unfold recorded. by destruct (insert_fault env). Qed.

Lemma frame_at_some w l d : heap w !! l = Some d -> frame_at w l = d.
Proof. intros H. unfold frame_at. by rewrite H. Qed.

Lemma frame_at_write w d : frame_at (at_write w d) (length (heap w)) = prepared (run_token (runs_issued w)) d.
Proof. unfold frame_at, at_write. simpl. by rewrite list_lookup_middle. Qed.

(* The three ways a load of a non-empty batch can go. *)
Lemma load_to_raw_cases env l table ds ct w d :
  heap w !! l = Some d ->
  df_empty d = false ->
  let rid := run_token (runs_issued w) in
  let sent := prepared rid d in
  let key := qualified "RAW" table in
  let n := Z.of_nat (df_len d) in
  (exists e, conn w <> ConnOpen /\ connect_fault env = Some e /\
     load_to_raw env l table ds ct w = (Raise e, w))
  \/ (exists e, connects env w /\ write_error env w table ct = Some e /\
        load_to_raw env l table ds ct w
        = (Raise e,
           recorded env (failed_run env rid ds table e)
             (set_log (log w ++ [(ERROR, "Error loading to " +:+ table +:+ ": " +:+ exn_str e)])
                (at_write w d))))
  \/ (connects env w /\ write_error env w table ct = None /\
      load_to_raw env l table ds ct w
      = (Ret (mkLoadResult (Some rid) n "completed" (Some 1%nat)),
         recorded env (completed_run env rid ds table n)
           (set_tables (<[key := default [] (tables w !! key) ++ df_rows sent]> (tables w))
              (at_write w d)))).
Proof.
  intros Hl He rid sent key n.
  pose proof (frame_at_some _ _ _ Hl) as Hf.
  destruct (connects_dec env w) as [Hc|[Hc [e Hcf]]].
  - right. rewrite load_to_raw_prepared by (by rewrite ?Hf). rewrite Hf.
    destruct (write_error env w table ct) as [e|] eqn:Ew.
    + left. exists e. split; [done|]. split; [done|].
      by rewrite (write_and_record_fails _ _ _ _ _ _ _ e).
    + right. split; [done|]. split; [done|].
      rewrite write_and_record_loads by done.
      rewrite frame_at_write. cbn zeta. subst n. by rewrite prepared_len.
  - left. exists e. split; [done|]. split; [done|].
    apply load_to_raw_connect_fails; by rewrite ?Hf.
Qed.

Lemma update_watermark_open env ds v w :
  conn w = ConnOpen ->
  update_watermark env ds v w
  = (Ret tt,
     match merge_fault env with
     | None => set_watermarks (<[ds := mkWatermark (py_str v) (now env)]> (watermarks w)) w
     | Some e => set_log (log w ++ [(WARNING, "Failed to update watermark: " +:+ exn_str e)]) w
     end).
Proof.
  intros Hc. unfold update_watermark, try_except, bind, conn_cursor, bind, get_world.
  rewrite Hc. unfold fault. by destruct (merge_fault env).
Qed.

Lemma load_and_advance_skipped env l table ds w :
  df_empty (frame_at w l) = true ->
  load_and_advance env l table ds w = load_to_raw env l table ds false w.
Proof.
  intros He. unfold load_and_advance.
  erewrite bind_run by (apply load_to_raw_skipped; exact He).
  rewrite (load_to_raw_skipped _ _ _ _ _ _ He).
  unfold bind at 1, deref at 1. cbn [heap set_log].
  fold (frame_at w l). by rewrite He.
Qed.

(** C1 (as amended).  For every empty batch, load_to_raw returns the
    dictionary {'records_loaded': 0, 'status': 'skipped'} as a normal
    result, performs no warehouse write, leaves every watermark as it
    was, and writes nothing to the run ledger: the only trace of the
    call is a warning in the log.  The task that called it then skips
    the watermark advance as well. *)
Theorem load_to_raw_empty_batch env l table ds ct w d :
  heap w !! l = Some d ->
  df_empty d = true ->
  exists w',
    load_to_raw env l table ds ct w = (Ret (mkLoadResult None 0 "skipped" None), w')
    /\ tables w' = tables w
    /\ ingest_runs w' = ingest_runs w
    /\ watermarks w' = watermarks w
    /\ heap w' = heap w
    /\ conn w' = conn w
    /\ runs_issued w' = runs_issued w
    /\ log w' = log w ++ [(WARNING, "Empty DataFrame provided for " +:+ table)]
    /\ load_and_advance env l table ds w = load_to_raw env l table ds false w.
Proof.
  intros Hl He. eexists. split.
  - apply load_to_raw_skipped. by rewrite (frame_at_some _ _ _ Hl).
  - repeat split. apply load_and_advance_skipped. by rewrite (frame_at_some _ _ _ Hl).
Qed.

Lemma load_to_raw_empty_batch_witness :
  exists w',
    load_to_raw (no_faults empty_frame) 0%nat "STOCK_PRICES_DAILY" "stock_prices" false
      (world_with empty_frame)
    = (Ret (mkLoadResult None 0 "skipped" None), w')
    /\ tables w' = raw_tables
    /\ ingest_runs w' = []
    /\ watermarks w' = ∅
    /\ heap w' = [empty_frame]
    /\ conn w' = NoConn
    /\ runs_issued w' = 0%nat
    /\ log w' = [] ++ [(WARNING, "Empty DataFrame provided for " +:+ "STOCK_PRICES_DAILY")]
    /\ load_and_advance (no_faults empty_frame) 0%nat "STOCK_PRICES_DAILY" "stock_prices"
         (world_with empty_frame)
       = load_to_raw (no_faults empty_frame) 0%nat "STOCK_PRICES_DAILY" "stock_prices" false
           (world_with empty_frame).
Proof.
  apply (load_to_raw_empty_batch (no_faults empty_frame) 0%nat "STOCK_PRICES_DAILY"
           "stock_prices" false (world_with empty_frame) empty_frame); reflexivity.
Defined.

(** C1, the claim as stated fails: the load of an empty batch returns
    'skipped' normally, yet the run ledger holds no record afterwards,
    so no 'skipped' run record with rows_loaded = 0 was written. *)
Lemma empty_batch_writes_no_run_record :
  let res := load_to_raw (no_faults empty_frame) 0%nat "STOCK_PRICES_DAILY" "stock_prices"
               false (world_with empty_frame) in
  df_empty empty_frame = true
  /\ res.1 = Ret (mkLoadResult None 0 "skipped" None)
  /\ ingest_runs res.2 = []
  /\ ~ (exists r, r ∈ ingest_runs res.2 /\ status r = "skipped" /\ records_loaded r = 0).
Proof.
  cbn zeta. repeat split.
  intros [r [Hin _]]. vm_compute in Hin. by apply elem_of_nil in Hin.
Qed.

(** C10.  load_to_raw never mutates the caller's batch: whatever the
    outcome of the call, the object the caller passed holds the frame it
    held before, and so does every other object that existed; the run
    identifier column and the date conversion live in a new object. *)
Theorem load_to_raw_keeps_batch env l table ds ct w d :
  heap w !! l = Some d ->
  let w' := (load_to_raw env l table ds ct w).2 in
  heap w' !! l = Some d /\ take (length (heap w)) (heap w') = heap w.
Proof.
  intros Hl w'.
  assert (Hpre : take (length (heap w)) (heap w') = heap w).
  { subst w'. destruct (df_empty d) eqn:He.
    - rewrite load_to_raw_skipped by (by rewrite (frame_at_some _ _ _ Hl)).
      simpl. apply firstn_all.
    - destruct (load_to_raw_cases env l table ds ct w d Hl He)
        as [(e & _ & _ & ->)|[(e & _ & _ & ->)| (_ & _ & ->)]]; simpl.
      + apply firstn_all.
      + rewrite heap_recorded. simpl. by rewrite take_app_length.
      + rewrite heap_recorded. simpl. by rewrite take_app_length. }
  split; [|done].
  rewrite <- (lookup_take_lt (heap w') (length (heap w)) l) by (by eapply lookup_lt_Some).
  by rewrite Hpre.
Qed.

Lemma load_to_raw_keeps_batch_witness :
  let w' := (load_to_raw (no_faults prices_batch) 0%nat "STOCK_PRICES_DAILY" "stock_prices"
               false (world_with prices_batch)).2 in
  heap w' !! 0%nat = Some prices_batch
  /\ take (length (heap (world_with prices_batch))) (heap w') = heap (world_with prices_batch).
Proof.
  apply (load_to_raw_keeps_batch (no_faults prices_batch) 0%nat "STOCK_PRICES_DAILY"
           "stock_prices" false (world_with prices_batch) prices_batch).
  reflexivity.
Defined.






(** C4.  For every non-empty batch, when the warehouse write raises
    (or reports failure, which load_to_raw turns into an exception), the
    load ends by raising that same exception, after one attempt to write
    a run record with status 'failed', zero rows and the text of the
    exception: the record is the one new row of the ledger when the
    insert goes through; when the insert itself fails, that failure is
    only logged as a warning, and the caller still gets the original
    exception.  The tables and the watermarks are as before. *)
Theorem failed_load env l table ds ct w d e :
  heap w !! l = Some d ->
  df_empty d = false ->
  connects env w ->
  write_error env w table ct = Some e ->
  let rid := run_token (runs_issued w) in
  exists w',
    load_to_raw env l table ds ct w = (Raise e, w')
    /\ (insert_fault env = None ->
        ingest_runs w'
        = ingest_runs w ++ [mkRunRecord rid ds table (now env) 0 "failed" (Some (exn_str e))])
    /\ (forall e', insert_fault env = Some e' ->
        ingest_runs w' = ingest_runs w
        /\ log w' = log w ++ [(ERROR, "Error loading to " +:+ table +:+ ": " +:+ exn_str e);
                              (WARNING, "Failed to log metadata: " +:+ exn_str e')])
    /\ tables w' = tables w
    /\ watermarks w' = watermarks w.
Proof.
  intros Hl He Hc Hwe rid.
  destruct (load_to_raw_cases env l table ds ct w d Hl He)
    as [(e0 & Hn & Hcf & _)|[(e0 & _ & Hwe0 & Hr)| (_ & Hwe0 & _)]].
  - destruct Hc as [Hc|Hc]; congruence.
  - assert (e0 = e) as -> by congruence.
    eexists. split; [exact Hr|].
    split; [|split; [|split]].
    + intros Hi. unfold recorded. by rewrite Hi.
    + intros e' Hi. unfold recorded. rewrite Hi. simpl. by rewrite <- app_assoc.
    + by rewrite tables_recorded.
    + by rewrite watermarks_recorded.
  - congruence.
Qed.

Lemma failed_load_witness :
  exists w',
    load_to_raw (warehouse_down prices_batch) 0%nat "STOCK_PRICES_DAILY" "stock_prices" false
      (world_with prices_batch)
    = (Raise (PyExn "OperationalError" "Failed to connect to the warehouse"), w')
    /\ ingest_runs w'
       = [mkRunRecord "run-0" "stock_prices" "STOCK_PRICES_DAILY" (mkdatetime (jan 15) 7200) 0
            "failed" (Some "Failed to connect to the warehouse")].
Proof.
  destruct (failed_load (warehouse_down prices_batch) 0%nat "STOCK_PRICES_DAILY" "stock_prices"
              false (world_with prices_batch) prices_batch
              (PyExn "OperationalError" "Failed to connect to the warehouse"))
    as (w' & Hr & Hi & _).
  - reflexivity.
  - reflexivity.
  - right. reflexivity.
  - reflexivity.
  - exists w'. split; [exact Hr|]. exact (Hi eq_refl).
Defined.

Lemma assoc_set_eq {A} (k : string) (a : A) (l : list (string * A)) :
  assoc k (assoc_set k a l) = Some a.
Proof.
  induction l as [|[k' a'] l IH]; simpl.
  - by rewrite String.eqb_refl.
  - destruct (String.eqb_spec k k') as [->|Hne]; simpl.
    + by rewrite String.eqb_refl.
    + destruct (String.eqb_spec k k'); [done|apply IH].
Qed.


Lemma assoc_fmap {A B} (f : A -> B) (k : string) (l : list (string * A)) :
  assoc k ((fun c : string * A => (c.1, f c.2)) <$> l) = f <$> assoc k l.
Proof.
  induction l as [|[k' a'] l IH]; simpl; [done|].
  destruct (String.eqb k k'); [done|apply IH].
Qed.





Lemma prepared_rows_stamped rid d :
  Forall (fun row : Row => assoc "source_run_id" row = Some (VStr rid)) (df_rows (prepared rid d)).
Proof.
  unfold df_rows. apply Forall_fmap, Forall_forall. intros i Hi.
  apply elem_of_seq in Hi as [_ Hi]. simpl in Hi.
  unfold compose, row_at.
  rewrite (assoc_fmap (fun s : Series => default VNone (s_values s !! i))).
  unfold prepared, df_set_scalar, df_set at 1. cbn [columns].
  rewrite assoc_set_eq. cbn [fmap option_fmap option_map s_values index_len df_set].
  by rewrite lookup_replicate_2.
Qed.

Lemma df_rows_length d : length (df_rows d) = df_len d.
Proof. unfold df_rows, df_len. by rewrite length_fmap, length_seq. Qed.





Lemma update_watermark_general env ds v w :
  exists w',
    update_watermark env ds v w = (Ret tt, w')
    /\ conn w' = conn w
    /\ forall ds', stored w' ds'
                   = if advance_ok (conn w) env && String.eqb ds ds'
                     then Some (py_str v) else stored w ds'.
Proof.
  unfold update_watermark, try_except, bind, conn_cursor, bind, get_world, advance_ok.
  destruct (conn w) eqn:Ec; simpl.
  - eexists. split; [done|]. split; [done|]. done.
  - unfold fault. destruct (merge_fault env); simpl.
    + eexists. split; [done|]. split; [done|]. done.
    + eexists. split; [done|]. split; [done|]. intros ds'. unfold stored. simpl.
      destruct (String.eqb_spec ds ds') as [->|Hne].
      * by rewrite lookup_insert_eq.
      * by rewrite lookup_insert_ne.
  - eexists. split; [done|]. split; [done|]. done.
Qed.

(** C2 (as amended).  For every dataset and every sequence of advances,
    no advance raises, and the stored watermark of the dataset is the
    text of the value of the last advance of that dataset whose MERGE
    went through, whatever was stored before (last write wins); an
    advance that fails, and an advance of another dataset, leave it as
    it was. *)
Theorem watermark_last_write_wins (ops : list Advance) : forall (w : World) (dataset : string),
  (advance_all ops w).1 = Ret tt
  /\ conn (advance_all ops w).2 = conn w
  /\ stored (advance_all ops w).2 dataset
     = last_advanced (conn w) dataset ops (stored w dataset)
  /\ (forall env ds v,
        (update_watermark env ds v w).1 = Ret tt
        /\ stored (update_watermark env ds v w).2 dataset
           = if advance_ok (conn w) env && String.eqb ds dataset
             then Some (py_str v) else stored w dataset).
Proof.
  intros w dataset.
  assert (Hone : forall env ds v,
             (update_watermark env ds v w).1 = Ret tt
             /\ stored (update_watermark env ds v w).2 dataset
                = if advance_ok (conn w) env && String.eqb ds dataset
                  then Some (py_str v) else stored w dataset).
  { intros env ds v.
    destruct (update_watermark_general env ds v w) as (w1 & -> & _ & Hst).
    split; [done|]. apply Hst. }
  cut ((advance_all ops w).1 = Ret tt
       /\ conn (advance_all ops w).2 = conn w
       /\ stored (advance_all ops w).2 dataset
          = last_advanced (conn w) dataset ops (stored w dataset)).
  { intros (H1 & H2 & H3). auto. }
  clear Hone. revert w.
  induction ops as [|[[env ds] v] ops IH]; intros w; [done|].
  unfold advance_all. cbn [for_each fst snd].
  destruct (update_watermark_general env ds v w) as (w1 & Hrun & Hconn & Hst).
  rewrite (bind_run _ _ _ _ _ Hrun).
  destruct (IH w1) as (Hr & Hc & Hs). unfold advance_all in Hr, Hc, Hs.
  split; [done|]. split; [congruence|].
  rewrite Hs, Hconn, Hst. done.
Qed.

(** C2, the claim as stated fails.  Two advances of the same dataset go
    through, the second with an earlier date: the stored watermark is
    then that earlier date, below the value stored before and below the
    running maximum. *)
Lemma watermark_regresses :
  let env := no_faults empty_frame in
  let w1 := (update_watermark env "stock_prices" (VDate (jan 10)) connected_world).2 in
  let w2 := (update_watermark env "stock_prices" (VDate (jan 5)) w1).2 in
  stored w1 "stock_prices" = Some "2024-01-10"
  /\ stored w2 "stock_prices" = Some "2024-01-05"
  /\ value_ltb (VDate (jan 5)) (VDate (jan 10)) = Some true
  /\ stored w2 "stock_prices" <> Some (py_str (VDate (jan 10))).
Proof. cbn zeta. repeat split; vm_compute; congruence. Qed.

(** C9.  get_watermark never raises.  When the SELECT goes through it
    returns the stored value of the dataset if a watermark row exists and
    None if none exists, and changes nothing; when the SELECT fails (no
    open connection, or the statement raises) it returns None and logs a
    warning.  No watermark is changed either way. *)
Theorem get_watermark_reads env dataset w :
  exists r w',
    get_watermark env dataset w = (Ret r, w')
    /\ watermarks w' = watermarks w
    /\ (conn w = ConnOpen -> select_fault env = None ->
        w' = w
        /\ (forall row, watermarks w !! dataset = Some row -> r = Some (watermark_value row))
        /\ (watermarks w !! dataset = None -> r = None))
    /\ (conn w <> ConnOpen \/ select_fault env <> None ->
        r = None /\ exists msg, log w' = log w ++ [(WARNING, "Failed to get watermark: " +:+ msg)]).
Proof.
  unfold get_watermark, try_except, bind, conn_cursor, bind, get_world.
  destruct (conn w) eqn:Ec; simpl.
  - eexists _, _. split; [done|]. split; [done|]. split; [done|]. eauto.
  - unfold fault. destruct (select_fault env) as [e|]; simpl.
    + eexists _, _. split; [done|]. split; [done|]. split; [done|]. eauto.
    + eexists _, _. split; [done|]. split; [done|]. split.
      * intros _ _. split; [done|]. split.
        -- intros row ->. done.
        -- intros ->. done.
      * intros [?|?]; done.
  - eexists _, _. split; [done|]. split; [done|]. split; [done|]. eauto.
Qed.

Lemma get_watermark_reads_witness :
  let w := (update_watermark (no_faults empty_frame) "stock_prices" (VDate (jan 10))
              connected_world).2 in
  get_watermark (no_faults empty_frame) "stock_prices" w = (Ret (Some "2024-01-10"), w)
  /\ get_watermark (no_faults empty_frame) "company_info" w = (Ret None, w).
Proof.
  intros w. split.
  - destruct (get_watermark_reads (no_faults empty_frame) "stock_prices" w)
      as (r & w' & Hrun & _ & Hok & _).
    destruct (Hok eq_refl eq_refl) as (-> & Hsome & _).
    rewrite Hrun. f_equal. f_equal. apply (Hsome (mkWatermark "2024-01-10" (mkdatetime (jan 15) 7200))).
    vm_compute. reflexivity.
  - destruct (get_watermark_reads (no_faults empty_frame) "company_info" w)
      as (r & w' & Hrun & _ & Hok & _).
    destruct (Hok eq_refl eq_refl) as (-> & _ & Hnone).
    rewrite Hrun. f_equal. f_equal. apply Hnone. vm_compute. reflexivity.
Defined.

(* ---------------------------- the task graph ------------------------- *)

Lemma set_node_same t n s : set_node t n s t = n.
Proof. unfold set_node. by rewrite String.eqb_refl. Qed.

Lemma set_node_other t t' n s : t' <> t -> set_node t n s t' = s t'.
Proof. unfold set_node. intros H. by destruct (String.eqb_spec t' t). Qed.

(* A step changes one node, which was pending or running. *)
Lemma step_changes s s' :
  step s s' ->
  exists t n,
    s' = set_node t n s
    /\ (node_st (s t) = pending \/ node_st (s t) = running)
    /\ (tries n = tries (s t) \/ (tries n = S (tries (s t)) /\ node_st n = running)).
Proof. destruct 1; eexists _, _; split; eauto. Qed.

(* succeeded, failed and upstream_failed are final. *)
Lemma step_final s s' u :
  step s s' ->
  node_st (s u) = succeeded \/ is_failed (node_st (s u)) = true ->
  s' u = s u.
Proof.
  intros Hstep Hu. destruct (step_changes _ _ Hstep) as (t & n & -> & Ht & _).
  apply set_node_other. intros ->.
  destruct Hu as [Hu|Hu], Ht as [Ht|Ht]; rewrite Ht in Hu; discriminate.
Qed.

Lemma steps_final s s' u :
  rtc step s s' ->
  node_st (s u) = succeeded \/ is_failed (node_st (s u)) = true ->
  s' u = s u.
Proof.
  induction 1 as [|s1 s2 s3 Hstep _ IH]; [done|]. intros Hu.
  rewrite IH; [by eapply step_final|]. by rewrite (step_final _ _ _ Hstep Hu).
Qed.

Lemma initial_inv : graph_inv initial.
Proof.
  split; unfold started, initial; simpl; intros t.
  - intros [?|[?|?]]; discriminate.
  - lia.
  - lia.
  - lia.
  - discriminate.
Qed.

Lemma upstream_kept s s' t :
  step s s' ->
  Forall (fun u => node_st (s u) = succeeded) (upstream t) ->
  Forall (fun u => node_st (s' u) = succeeded) (upstream t).
Proof.
  intros Hstep Hall. eapply Forall_impl; [exact Hall|].
  intros u Hu. simpl. rewrite (step_final _ _ u Hstep); auto.
Qed.

Lemma step_inv s s' : graph_inv s -> step s s' -> graph_inv s'.
Proof.
  intros [I1 I2 I3 I4 I5] Hstep.
  assert (Hup : forall t, started s t ->
                  Forall (fun u => node_st (s' u) = succeeded) (upstream t)).
  { intros t Ht. eapply upstream_kept; eauto. }
  destruct Hstep as [t s Hin Hp Hall|t s Hr|t s Hr Hle|t s Hr Hlt|t s Hin Hp Hex];
    split; unfold started in *; intros t';
    (destruct (decide (t' = t)) as [->|Hne];
     [rewrite ?set_node_same; simpl | rewrite ?(set_node_other _ _ _ _ Hne)]);
    auto; try (intros [?|?]; discriminate); try discriminate; try lia.
  - intros _. eapply upstream_kept; [|exact Hall]. by apply step_start.
  - pose proof (I4 t (or_introl Hp)). lia.
  - intros _. pose proof (I3 t). lia.
  - intros [?|[?|?]]; discriminate.
Qed.

Lemma reachable_inv s : reachable s -> graph_inv s.
Proof.
  unfold reachable. intros H. revert s H. apply rtc_ind_r.
  - apply initial_inv.
  - intros s1 s2 _ Hstep IH. by eapply step_inv.
Qed.

Lemma retries_of_task t : t ∈ task_ids -> retries_of t = 2%nat.
Proof.
  unfold task_ids, dag_tasks. cbn [fmap list_fmap task_id start extract_prices
    extract_company extract_benchmarks verify transform_dbt end_].
  intros Hin. repeat (apply elem_of_cons in Hin as [->|Hin]; [vm_compute; reflexivity|]).
  by apply elem_of_nil in Hin.
Qed.

Lemma upstream_verify : upstream "verify_data_quality" = extraction_ids.
Proof. vm_compute. reflexivity. Qed.

Lemma upstream_transform : upstream "transform_dbt" = ["verify_data_quality"].
Proof. vm_compute. reflexivity. Qed.

Lemma upstream_end : upstream "end" = ["transform_dbt"].
Proof. vm_compute. reflexivity. Qed.

Lemma start_reachable : reachable (run_node "start" initial).
Proof. unfold reachable, run_node. by_succeed. by_start. apply rtc_refl. Qed.

Lemma gate_running_reachable : reachable gate_running.
Proof.
  unfold reachable, gate_running, run_node.
  by_start. by_succeed. by_start. by_succeed. by_start. by_succeed. by_start.
  apply start_reachable.
Qed.

Lemma gate_retried_reachable : reachable gate_retried.
Proof.
  unfold reachable, gate_retried. by_start. by_retry. apply gate_running_reachable.
Qed.

Lemma prices_failed_reachable : reachable prices_failed.
Proof.
  unfold reachable, prices_failed. cbv zeta.
  by_fail. by_start. by_retry. by_start. by_retry. by_start.
  apply start_reachable.
Qed.

(* A node that has been started has all its upstream nodes succeeded. *)
Lemma started_upstream s t u :
  reachable s -> started s t -> u ∈ upstream t -> node_st (s u) = succeeded.
Proof.
  intros Hr Hs Hu. pose proof (inv_upstream s (reachable_inv s Hr) t Hs) as Hall.
  rewrite Forall_forall in Hall. by apply Hall.
Qed.

Lemma succeeded_started s t : reachable s -> node_st (s t) = succeeded -> started s t.
Proof. intros Hr Hs. apply (inv_started s (reachable_inv s Hr)). auto. Qed.

Lemma not_started_after_failure s e :
  reachable s ->
  e ∈ extraction_ids ->
  is_failed (node_st (s e)) = true ->
  ~ started s "verify_data_quality"
  /\ ~ started s "transform_dbt"
  /\ ~ started s "end".
Proof.
  intros Hr He Hf.
  assert (Hv : ~ started s "verify_data_quality").
  { intros Hs. rewrite <- upstream_verify in He.
    rewrite (started_upstream s _ e Hr Hs He) in Hf. discriminate. }
  assert (Ht : ~ started s "transform_dbt").
  { intros Hs. apply Hv. apply succeeded_started; [done|].
    apply (started_upstream s "transform_dbt"); [done|done|].
    rewrite upstream_transform. apply elem_of_cons. by left. }
  split; [done|]. split; [done|].
  intros Hs. apply Ht. apply succeeded_started; [done|].
  apply (started_upstream s "end"); [done|done|].
  rewrite upstream_end. apply elem_of_cons. by left.
Qed.

(** C7.  In every run of the task graph, the gate has been started only
    if all three extraction nodes have succeeded, the transform only if
    the gate has succeeded, and the end marker only if the transform has
    succeeded; and once an extraction node is failed (or upstream_failed),
    neither the gate nor the transform nor the end marker has been
    started, then or at any later point of the run. *)
Theorem graph_order s :
  reachable s ->
  (started s "verify_data_quality" ->
   Forall (fun e => node_st (s e) = succeeded) extraction_ids)
  /\ (started s "transform_dbt" -> node_st (s "verify_data_quality") = succeeded)
  /\ (started s "end" -> node_st (s "transform_dbt") = succeeded)
  /\ (forall e s',
        e ∈ extraction_ids ->
        is_failed (node_st (s e)) = true ->
        rtc step s s' ->
        ~ started s' "verify_data_quality"
        /\ ~ started s' "transform_dbt"
        /\ ~ started s' "end").
Proof.
  intros Hr. split; [|split; [|split]].
  - intros Hs. rewrite <- upstream_verify.
    apply (inv_upstream s (reachable_inv s Hr)), Hs.
  - intros Hs. apply (started_upstream s "transform_dbt"); [done|done|].
    rewrite upstream_transform. apply elem_of_cons. by left.
  - intros Hs. apply (started_upstream s "end"); [done|done|].
    rewrite upstream_end. apply elem_of_cons. by left.
  - intros e s' He Hf Hsteps.
    apply (not_started_after_failure s' e); [|done|].
    + unfold reachable in *. by etrans.
    + rewrite (steps_final s s' e Hsteps); auto.
Qed.

Lemma graph_order_witness :
  Forall (fun e => node_st (gate_running e) = succeeded) extraction_ids
  /\ (forall s', rtc step prices_failed s' ->
        ~ started s' "verify_data_quality"
        /\ ~ started s' "transform_dbt"
        /\ ~ started s' "end").
Proof.
  split.
  - apply (graph_order gate_running gate_running_reachable). vm_compute. lia.
  - intros s' Hsteps.
    apply (proj2 (proj2 (proj2 (graph_order prices_failed prices_failed_reachable)))
             "extract_yahoo_prices" s'); [|reflexivity|exact Hsteps].
    apply list_elem_of_In. vm_compute. tauto.
Defined.

(** C6 (as amended).  Every node of the DAG takes retries = 2 and
    retry_delay = 5 minutes from default_args: the three extraction
    nodes, and the gate, the transform and the two markers as well, since
    no operator is given a value of its own.  So in every run each node is
    started at most 3 times, that is retried at most 2 times, and a node
    is marked failed only after its third attempt. *)
Theorem every_node_retried_twice :
  Forall (fun t => task_retries t = 2%nat /\ task_retry_delay t = 5 * 60) dag_tasks
  /\ (forall s t,
        reachable s ->
        t ∈ task_ids ->
        (tries (s t) <= 3)%nat /\ (node_st (s t) = failed -> tries (s t) = 3%nat)).
Proof.
  split.
  - repeat constructor.
  - intros s t Hr Ht. pose proof (reachable_inv s Hr) as Hinv.
    pose proof (inv_tries s Hinv t) as Hle.
    pose proof (inv_failed s Hinv t) as Hf.
    rewrite (retries_of_task t Ht) in Hle, Hf. auto.
Qed.

Lemma every_node_retried_twice_witness :
  (tries (prices_failed "extract_yahoo_prices") <= 3)%nat
  /\ (node_st (prices_failed "extract_yahoo_prices") = failed ->
      tries (prices_failed "extract_yahoo_prices") = 3%nat).
Proof.
  apply (proj2 every_node_retried_twice prices_failed "extract_yahoo_prices"
           prices_failed_reachable).
  apply list_elem_of_In. vm_compute. tauto.
Defined.

(** C6, the claim as stated fails for the gate and the transform: both
    have retries = 2 like every other node, and there is a run in which
    the gate, having failed once, is started a second time. *)
Lemma gate_is_retried :
  task_retries verify = 2%nat
  /\ task_retries transform_dbt = 2%nat
  /\ reachable gate_retried
  /\ tries (gate_retried "verify_data_quality") = 2%nat
  /\ node_st (gate_retried "verify_data_quality") = running.
Proof.
  split; [reflexivity|]. split; [reflexivity|].
  split; [apply gate_retried_reachable|]. split; reflexivity.
Qed.

(* ------------------------------ the gate ----------------------------- *)

Lemma close_returns w :
  close w = (Ret tt, match conn w with ConnOpen => set_conn ConnClosed w | _ => w end).
Proof. unfold close, bind, get_world. by destruct (conn w). Qed.

Lemma try_finally_close {A : Type} (body : M A) (w w1 : World) (r : outcome A) :
  body w = (r, w1) ->
  try_finally body close w
  = (r, match conn w1 with ConnOpen => set_conn ConnClosed w1 | _ => w1 end).
Proof. intros H. unfold try_finally. by rewrite H, close_returns. Qed.



Lemma execute_query_count_ok env t w rows :
  connects env w ->
  query_fault env (SelectCount t) = None ->
  tables w !! t = Some rows ->
  execute_query env (SelectCount t) w
  = (Ret (one_row "COUNT" int64 (VInt (Z.of_nat (length rows)))), set_conn ConnOpen w).
Proof.
  intros Hc Hq Ht. unfold execute_query.
  rewrite (bind_run _ _ _ _ _ (get_connection_connects env w Hc)).
  unfold bind at 1, fault. rewrite Hq. unfold ret at 1, bind at 1, get_world at 1.
  cbn [tables set_conn]. by rewrite Ht.
Qed.


(* One turn of the loop of the gate over a table that has rows. *)
Lemma check_counts_step env t name cs results w rows :
  connects env w ->
  query_fault env (SelectCount t) = None ->
  tables w !! t = Some rows ->
  rows <> [] ->
  check_counts env ((t, name) :: cs) results w
  = check_counts env cs (assoc_set name (VInt (Z.of_nat (length rows))) results)
      (set_conn ConnOpen w).
Proof.
  intros Hc Hq Ht Hne. cbn [check_counts].
  rewrite (bind_run _ _ _ _ _ (execute_query_count_ok env t w rows Hc Hq Ht)).
  cbn [df_empty one_row index_len columns length Nat.eqb orb negb].
  unfold bind at 1, bind at 1, getitem, df_get.
  change (assoc "COUNT" (columns (one_row "COUNT" int64 (VInt (Z.of_nat (length rows))))))
    with (Some (mkSeries int64 [VInt (Z.of_nat (length rows))])).
  cbn [or_raise]. unfold ret at 1, iloc0. cbn [s_values lookup list_lookup or_raise].
  unfold ret at 1. destruct rows as [|row rows]; [done|]. reflexivity.
Qed.




(* ===================================================================== *)
(* Further properties of the loader                                       *)
(* ===================================================================== *)

(* Every way a call of load_to_raw can go, for the frame behind [l]. *)
Lemma load_to_raw_outcomes env l table ds ct w :
  let d := frame_at w l in
  let rid := run_token (runs_issued w) in
  let n := Z.of_nat (df_len d) in
  let key := qualified "RAW" table in
  (df_empty d = true /\
     load_to_raw env l table ds ct w
     = (Ret (mkLoadResult None 0 "skipped" None),
        set_log (log w ++ [(WARNING, "Empty DataFrame provided for " +:+ table)]) w))
  \/ (df_empty d = false /\ exists e, conn w <> ConnOpen /\ connect_fault env = Some e /\
        load_to_raw env l table ds ct w = (Raise e, w))
  \/ (df_empty d = false /\ exists e, connects env w /\ write_error env w table ct = Some e /\
        load_to_raw env l table ds ct w
        = (Raise e,
           recorded env (failed_run env rid ds table e)
             (set_log (log w ++ [(ERROR, "Error loading to " +:+ table +:+ ": " +:+ exn_str e)])
                (at_write w d))))
  \/ (df_empty d = false /\ connects env w /\ write_error env w table ct = None /\
      load_to_raw env l table ds ct w
      = (Ret (mkLoadResult (Some rid) n "completed" (Some 1%nat)),
         recorded env (completed_run env rid ds table n)
           (set_tables
              (<[key := default [] (tables w !! key) ++ df_rows (prepared rid d)]> (tables w))
              (at_write w d)))).
Proof.
  intros d rid n key. destruct (df_empty d) eqn:He.
  - left. split; [done|]. by apply load_to_raw_skipped.
  - right. destruct (connects_dec env w) as [Hc|[Hc [e Hcf]]].
    + right. rewrite load_to_raw_prepared by done. fold d.
      destruct (write_error env w table ct) as [e|] eqn:Ew.
      * left. split; [done|]. exists e. split; [done|]. split; [done|].
        by rewrite (write_and_record_fails _ _ _ _ _ _ _ e).
      * right. split; [done|]. split; [done|]. split; [done|].
        rewrite write_and_record_loads by done.
        rewrite frame_at_write. cbn zeta. subst n rid. by rewrite prepared_len.
    + left. split; [done|]. exists e. split; [done|]. split; [done|].
      by apply load_to_raw_connect_fails.
Qed.

Lemma ingest_runs_recorded env r w :
  ingest_runs (recorded env r w) = ingest_runs w ++ ledger_entry env r.
Proof.
  unfold recorded, ledger_entry. destruct (insert_fault env); simpl; [|done].
  by rewrite app_nil_r.
Qed.

(** X1.  The run ledger is append-only under load_to_raw: whatever the
    batch and whatever the outside answers, a call leaves every record
    that was there in place and adds at most one, which carries the
    dataset and the table of the call and the status 'completed' or
    'failed', never 'skipped'. *)
Theorem ledger_append_only env l table ds ct w :
  exists new,
    ingest_runs (load_to_raw env l table ds ct w).2 = ingest_runs w ++ new
    /\ (length new <= 1)%nat
    /\ Forall (fun r => dataset_name r = ds /\ table_name r = table
                        /\ (status r = "completed" \/ status r = "failed")) new.
Proof.
  assert (Hentry : forall r, (length (ledger_entry env r) <= 1)%nat).
  { intros r. unfold ledger_entry. destruct (insert_fault env); simpl; lia. }
  assert (Hall : forall (P : RunRecord -> Prop) r, P r -> Forall P (ledger_entry env r)).
  { intros P r Hr. unfold ledger_entry. destruct (insert_fault env); auto. }
  destruct (load_to_raw_outcomes env l table ds ct w)
    as [(_ & ->)|[(_ & e & _ & _ & ->)|[(_ & e & _ & _ & ->)|(_ & _ & _ & ->)]]];
    cbn [snd].
  - exists []. rewrite app_nil_r. split; [done|]. split; [simpl; lia|constructor].
  - exists []. rewrite app_nil_r. split; [done|]. split; [simpl; lia|constructor].
  - eexists. rewrite ingest_runs_recorded. split; [reflexivity|]. split; [apply Hentry|].
    apply Hall. simpl. auto.
  - eexists. rewrite ingest_runs_recorded. split; [reflexivity|]. split; [apply Hentry|].
    apply Hall. simpl. auto.
Qed.

(** X2.  The ledger never disagrees with what the caller saw: a record
    added by a call of load_to_raw has status 'completed' only if the
    call returned, with the same run identifier and row count as the
    returned dictionary, and status 'failed' only if the call raised, with
    zero rows and the text of the exception that was raised. *)
Theorem ledger_agrees_with_outcome env l table ds ct w r :
  ingest_runs (load_to_raw env l table ds ct w).2 = ingest_runs w ++ [r] ->
  (status r = "completed" ->
   exists res,
     (load_to_raw env l table ds ct w).1 = Ret res
     /\ res_status res = "completed"
     /\ res_run_id res = Some (run_id r)
     /\ res_records_loaded res = records_loaded r)
  /\ (status r = "failed" ->
      exists e,
        (load_to_raw env l table ds ct w).1 = Raise e
        /\ error_message r = Some (exn_str e)
        /\ records_loaded r = 0).
Proof.
  assert (Hone : forall r0, ledger_entry env r0 = [r] -> r0 = r).
  { intros r0. unfold ledger_entry. destruct (insert_fault env); congruence. }
  destruct (load_to_raw_outcomes env l table ds ct w)
    as [(_ & ->)|[(_ & e & _ & _ & ->)|[(_ & e & _ & _ & ->)|(_ & _ & _ & ->)]]];
    cbn [fst snd]; intros Hled.
  - apply (f_equal length) in Hled. rewrite length_app in Hled. simpl in Hled. lia.
  - apply (f_equal length) in Hled. rewrite length_app in Hled. simpl in Hled. lia.
  - rewrite ingest_runs_recorded in Hled. cbn [ingest_runs set_log at_write set_heap
      set_runs_issued set_conn] in Hled. apply app_inv_head in Hled.
    apply Hone in Hled as <-. split; [discriminate|]. intros _. by exists e.
  - rewrite ingest_runs_recorded in Hled. cbn [ingest_runs set_tables at_write set_heap
      set_runs_issued set_conn] in Hled. apply app_inv_head in Hled.
    apply Hone in Hled as <-. split; [|discriminate]. intros _. eexists. by split.
Qed.

Lemma ledger_agrees_with_outcome_witness :
  exists e,
    (load_to_raw (warehouse_down prices_batch) 0%nat "STOCK_PRICES_DAILY" "stock_prices" false
       (world_with prices_batch)).1 = Raise e
    /\ Some "Failed to connect to the warehouse" = Some (exn_str e).
Proof.
  destruct (ledger_agrees_with_outcome (warehouse_down prices_batch) 0%nat
              "STOCK_PRICES_DAILY" "stock_prices" false (world_with prices_batch)
              (mkRunRecord "run-0" "stock_prices" "STOCK_PRICES_DAILY"
                 (mkdatetime (jan 15) 7200) 0 "failed"
                 (Some "Failed to connect to the warehouse")))
    as (_ & Hfailed).
  - vm_compute. reflexivity.
  - destruct (Hfailed eq_refl) as (e & Hr & Hmsg & _). exists e. split; [exact Hr|exact Hmsg].
Defined.

(** X3.  When the connection cannot be opened, load_to_raw of a non-empty
    batch raises the connection error and nothing else happens: no run
    record is written, no run identifier is drawn, the batch is not
    copied, no table is touched. *)
Theorem load_without_connection env l table ds ct w d e :
  heap w !! l = Some d ->
  df_empty d = false ->
  conn w <> ConnOpen ->
  connect_fault env = Some e ->
  load_to_raw env l table ds ct w = (Raise e, w).
Proof.
  intros Hl He Hc Hf. apply load_to_raw_connect_fails; [|done|done].
  by rewrite (frame_at_some _ _ _ Hl).
Qed.

Lemma load_without_connection_witness :
  load_to_raw (no_connection prices_batch) 0%nat "STOCK_PRICES_DAILY" "stock_prices" false
    (world_with prices_batch)
  = (Raise (PyExn "OperationalError" "Could not connect to Snowflake backend"),
     world_with prices_batch).
Proof.
  apply (load_without_connection (no_connection prices_batch) 0%nat "STOCK_PRICES_DAILY"
           "stock_prices" false (world_with prices_batch) prices_batch).
  - reflexivity.
  - reflexivity.
  - discriminate.
  - reflexivity.
Defined.

(** X4.  An open connection is reused: _get_connection on a loader whose
    connection is open returns without connecting again, so it succeeds
    and changes nothing even when Snowflake has become unreachable; and
    once the loader is closed, the next _get_connection does connect
    again, and raises if that fails. *)
Theorem connection_reused_until_closed env w :
  conn w = ConnOpen ->
  _get_connection env w = (Ret tt, w)
  /\ (forall e, connect_fault env = Some e ->
        exists w', close w = (Ret tt, w')
                   /\ conn w' = ConnClosed
                   /\ _get_connection env w' = (Raise e, w'))
  /\ (connect_fault env = None ->
        exists w', close w = (Ret tt, w')
                   /\ _get_connection env w' = (Ret tt, w)).
Proof.
  intros Hc. split; [|split].
  - unfold _get_connection, bind, get_world. by rewrite Hc.
  - intros e Hf. rewrite close_returns, Hc. eexists. split; [done|]. split; [done|].
    unfold _get_connection, bind, get_world, fault. cbn [conn set_conn]. by rewrite Hf.
  - intros Hf. rewrite close_returns, Hc. eexists. split; [done|].
    unfold _get_connection, bind, get_world, fault. cbn [conn set_conn]. rewrite Hf.
    cbn. destruct w; simpl in *. by subst.
Qed.

Lemma connection_reused_until_closed_witness :
  _get_connection (no_connection prices_batch) connected_world = (Ret tt, connected_world).
Proof.
  apply (connection_reused_until_closed (no_connection prices_batch) connected_world).
  reflexivity.
Defined.

(** X5.  update_watermark and get_watermark never open a connection.  On
    a loader whose connection is not open (a new loader that has loaded
    nothing, or a closed one) the advance is lost: update_watermark
    returns normally, stores nothing and only logs a warning, and
    get_watermark returns None whatever is stored. *)
Theorem watermark_needs_open_connection env dataset v w :
  conn w <> ConnOpen ->
  (exists msg,
     update_watermark env dataset v w
     = (Ret tt, set_log (log w ++ [(WARNING, "Failed to update watermark: " +:+ msg)]) w))
  /\ (exists msg,
        get_watermark env dataset w
        = (Ret None, set_log (log w ++ [(WARNING, "Failed to get watermark: " +:+ msg)]) w)).
Proof.
  intros Hc. unfold update_watermark, get_watermark, try_except, bind, conn_cursor, bind,
    get_world. destruct (conn w); [|done|]; simpl; eauto.
Qed.

Lemma watermark_needs_open_connection_witness :
  stored (update_watermark (no_faults prices_batch) "stock_prices" (VDate (jan 10))
            fresh_world).2 "stock_prices" = None.
Proof.
  destruct (watermark_needs_open_connection (no_faults prices_batch) "stock_prices"
              (VDate (jan 10)) fresh_world) as ((msg & Hrun) & _).
  - discriminate.
  - rewrite Hrun. reflexivity.
Defined.

Lemma get_watermark_open env dataset w :
  conn w = ConnOpen ->
  select_fault env = None ->
  get_watermark env dataset w = (Ret (stored w dataset), w).
Proof.
  intros Hc Hs. unfold get_watermark, try_except, bind, conn_cursor, bind, get_world, fault.
  rewrite Hc, Hs. unfold stored. cbn. by destruct (watermarks w !! dataset).
Qed.

(** X6.  Round trip of the watermark store: on an open connection, after
    an advance of a dataset that goes through, a read of that dataset
    returns the text of the value that was advanced, and a read of any
    other dataset returns what it returned before; the read changes
    nothing. *)
Theorem watermark_round_trip env env' dataset v w :
  conn w = ConnOpen ->
  merge_fault env = None ->
  select_fault env' = None ->
  let w1 := (update_watermark env dataset v w).2 in
  get_watermark env' dataset w1 = (Ret (Some (py_str v)), w1)
  /\ (forall other, other <> dataset ->
        (get_watermark env' other w1).1 = (get_watermark env' other w).1).
Proof.
  intros Hc Hm Hs w1. subst w1. rewrite (update_watermark_open _ _ _ _ Hc), Hm. cbn [snd].
  split.
  - rewrite get_watermark_open by done. unfold stored. cbn [watermarks set_watermarks].
    by rewrite lookup_insert_eq.
  - intros other Hne. rewrite !get_watermark_open by done. unfold stored.
    cbn [fst watermarks set_watermarks]. by rewrite lookup_insert_ne.
Qed.

Lemma watermark_round_trip_witness :
  (get_watermark (no_faults empty_frame) "stock_prices"
     (update_watermark (no_faults empty_frame) "stock_prices" (VDate (jan 10))
        connected_world).2).1
  = Ret (Some "2024-01-10").
Proof.
  exact (f_equal fst
           (proj1 (watermark_round_trip (no_faults empty_frame) (no_faults empty_frame)
                     "stock_prices" (VDate (jan 10)) connected_world
                     eq_refl eq_refl eq_refl))).
Defined.

Lemma fmap_assoc_set {A B} (g : A -> B) (k : string) (a : A) (l : list (string * A)) :
  (fun c : string * A => (c.1, g c.2)) <$> assoc_set k a l
  = assoc_set k (g a) ((fun c : string * A => (c.1, g c.2)) <$> l).
Proof.
  induction l as [|[k' a'] l IH]; simpl; [done|].
  destruct (String.eqb k k'); simpl; [done|]. f_equal. exact IH.
Qed.

(* The rows of the frame handed to write_pandas are the rows of the
   batch, dates normalized, each with the run identifier set. *)
Lemma prepared_rows rid d :
  df_rows (prepared rid d)
  = assoc_set "source_run_id" (VStr rid) <$> df_rows (normalize_dates d).
Proof.
  unfold df_rows. rewrite <- list_fmap_compose.
  change (index_len (prepared rid d)) with (index_len (normalize_dates d)).
  apply Forall_fmap_ext_1, Forall_forall. intros i Hi.
  apply elem_of_seq in Hi as [_ Hi]. simpl in Hi.
  unfold compose, row_at, prepared, df_set_scalar, df_set. cbn [columns].
  rewrite (fmap_assoc_set (fun s : Series => default VNone (s_values s !! i))).
  cbn [s_values]. by rewrite lookup_replicate_2.
Qed.

Lemma write_error_loaded env w table ct old :
  write_pandas_answer env = Loaded ->
  tables w !! qualified "RAW" table = Some old ->
  write_error env w table ct = None.
Proof. intros Ha Ht. unfold write_error. by rewrite Ha, Ht. Qed.

(* A load that the warehouse takes, on a table that exists. *)
Lemma load_to_raw_loaded env l table ds ct w d old :
  heap w !! l = Some d ->
  df_empty d = false ->
  connects env w ->
  write_pandas_answer env = Loaded ->
  tables w !! qualified "RAW" table = Some old ->
  let rid := run_token (runs_issued w) in
  let n := Z.of_nat (df_len d) in
  load_to_raw env l table ds ct w
  = (Ret (mkLoadResult (Some rid) n "completed" (Some 1%nat)),
     recorded env (completed_run env rid ds table n)
       (set_tables (<[qualified "RAW" table := old ++ df_rows (prepared rid d)]> (tables w))
          (at_write w d))).
Proof.
  intros Hl He Hc Ha Ht rid n.
  destruct (load_to_raw_cases env l table ds ct w d Hl He)
    as [(e & Hn & Hcf & _)|[(e & _ & Hwe & _)| (_ & _ & ->)]].
  - destruct Hc as [Hc|Hc]; congruence.
  - rewrite (write_error_loaded _ _ _ _ old Ha Ht) in Hwe. discriminate.
  - by rewrite Ht.
Qed.

(** X7.  The loader does not deduplicate.  Loading the same non-empty
    batch twice into a table that exists, the warehouse taking it both
    times, leaves the table with the rows it had, followed by the rows
    of the batch stamped with the first run identifier, followed by the
    same rows stamped with the second; the ledger gets one record per
    load, and the caller's batch is still what it was. *)
Theorem load_twice_duplicates env1 env2 l table ds ct w d old :
  heap w !! l = Some d ->
  df_empty d = false ->
  connects env1 w ->
  write_pandas_answer env1 = Loaded ->
  write_pandas_answer env2 = Loaded ->
  tables w !! qualified "RAW" table = Some old ->
  let w1 := (load_to_raw env1 l table ds ct w).2 in
  let w2 := (load_to_raw env2 l table ds ct w1).2 in
  let rows := df_rows (normalize_dates d) in
  let id1 := run_token (runs_issued w) in
  let id2 := run_token (S (runs_issued w)) in
  let n := Z.of_nat (df_len d) in
  tables w2 !! qualified "RAW" table
  = Some (old ++ (assoc_set "source_run_id" (VStr id1) <$> rows)
              ++ (assoc_set "source_run_id" (VStr id2) <$> rows))
  /\ length rows = df_len d
  /\ ingest_runs w2
     = ingest_runs w ++ ledger_entry env1 (completed_run env1 id1 ds table n)
                     ++ ledger_entry env2 (completed_run env2 id2 ds table n)
  /\ heap w2 !! l = Some d.
Proof.
  intros Hl He Hc Ha1 Ha2 Ht w1 w2 rows id1 id2 n.
  assert (Hw1 : w1 = recorded env1 (completed_run env1 id1 ds table n)
                       (set_tables
                          (<[qualified "RAW" table := old ++ df_rows (prepared id1 d)]>
                             (tables w)) (at_write w d))).
  { subst w1. by rewrite (load_to_raw_loaded _ _ _ _ _ _ d old). }
  assert (Hl1 : heap w1 !! l = Some d).
  { rewrite Hw1, heap_recorded. simpl.
    rewrite lookup_app_l by (by eapply lookup_lt_Some). done. }
  assert (Hc1 : connects env2 w1).
  { left. by rewrite Hw1, conn_recorded. }
  assert (Ht1 : tables w1 !! qualified "RAW" table = Some (old ++ df_rows (prepared id1 d))).
  { rewrite Hw1, tables_recorded. simpl. by rewrite lookup_insert_eq. }
  assert (Hn1 : runs_issued w1 = S (runs_issued w)).
  { by rewrite Hw1, runs_issued_recorded. }
  subst w2. rewrite (load_to_raw_loaded _ _ _ _ _ _ d _ Hl1 He Hc1 Ha2 Ht1). cbn [snd].
  rewrite Hn1. fold id2. split; [|split; [|split]].
  - rewrite tables_recorded. simpl. rewrite lookup_insert_eq.
    by rewrite <- app_assoc, !prepared_rows.
  - subst rows. rewrite df_rows_length. unfold normalize_dates, df_len.
    apply foldl_normalize_len.
  - rewrite ingest_runs_recorded. simpl. rewrite Hw1, ingest_runs_recorded. simpl.
    by rewrite <- app_assoc.
  - rewrite heap_recorded. simpl.
    rewrite lookup_app_l by (by eapply lookup_lt_Some). done.
Qed.

Lemma load_twice_duplicates_witness :
  let env := no_faults company_batch in
  let w1 := (load_to_raw env 0%nat "COMPANY_INFO" "company_info" false
               (world_with company_batch)).2 in
  let w2 := (load_to_raw env 0%nat "COMPANY_INFO" "company_info" false w1).2 in
  tables w2 !! "RAW.COMPANY_INFO"
  = Some [[("symbol", VStr "AAPL"); ("sector", VStr "Technology");
           ("source_run_id", VStr "run-0")];
          [("symbol", VStr "MSFT"); ("sector", VStr "Technology");
           ("source_run_id", VStr "run-0")];
          [("symbol", VStr "AAPL"); ("sector", VStr "Technology");
           ("source_run_id", VStr "run-1")];
          [("symbol", VStr "MSFT"); ("sector", VStr "Technology");
           ("source_run_id", VStr "run-1")]].
Proof.
  exact (proj1 (load_twice_duplicates (no_faults company_batch) (no_faults company_batch)
                  0%nat "COMPANY_INFO" "company_info" false (world_with company_batch)
                  company_batch [] eq_refl eq_refl (or_intror eq_refl) eq_refl eq_refl
                  eq_refl)).
Defined.

(** X8.  Rows can be traced to their run: when a load completes and its
    ledger insert goes through, the new ledger record and every row the
    load appended to the target table carry the same run identifier, and
    the record counts exactly the rows appended. *)
Theorem rows_traceable_to_run env l table ds ct w d res w' :
  heap w !! l = Some d ->
  df_empty d = false ->
  insert_fault env = None ->
  load_to_raw env l table ds ct w = (Ret res, w') ->
  exists r new,
    ingest_runs w' = ingest_runs w ++ [r]
    /\ tables w' !! qualified "RAW" table
       = Some (default [] (tables w !! qualified "RAW" table) ++ new)
    /\ Forall (fun row : Row => assoc "source_run_id" row = Some (VStr (run_id r))) new
    /\ records_loaded r = Z.of_nat (length new)
    /\ res_run_id res = Some (run_id r).
Proof.
  intros Hl He Hi Hload.
  destruct (load_to_raw_cases env l table ds ct w d Hl He)
    as [(e & _ & _ & Hr)|[(e & _ & _ & Hr)| (_ & _ & Hr)]];
    rewrite Hr in Hload; try discriminate.
  injection Hload as <- <-.
  eexists _, _. split; [|split; [|split; [|split]]].
  - rewrite ingest_runs_recorded. unfold ledger_entry. rewrite Hi. reflexivity.
  - rewrite tables_recorded. simpl. by rewrite lookup_insert_eq.
  - apply prepared_rows_stamped.
  - simpl. by rewrite df_rows_length, prepared_len.
  - reflexivity.
Qed.

Lemma rows_traceable_to_run_witness :
  exists r new,
    ingest_runs (load_to_raw (no_faults prices_batch) 0%nat "STOCK_PRICES_DAILY"
                   "stock_prices" false (world_with prices_batch)).2
    = [] ++ [r]
    /\ Forall (fun row : Row => assoc "source_run_id" row = Some (VStr (run_id r))) new
    /\ records_loaded r = Z.of_nat (length new).
Proof.
  destruct (rows_traceable_to_run (no_faults prices_batch) 0%nat "STOCK_PRICES_DAILY"
              "stock_prices" false (world_with prices_batch) prices_batch
              (mkLoadResult (Some "run-0") 3 "completed" (Some 1%nat))
              (load_to_raw (no_faults prices_batch) 0%nat "STOCK_PRICES_DAILY"
                 "stock_prices" false (world_with prices_batch)).2)
    as (r & new & Hled & _ & Hrows & Hn & _).
  - reflexivity.
  - reflexivity.
  - reflexivity.
  - vm_compute. reflexivity.
  - exists r, new. split; [exact Hled|]. split; [exact Hrows|exact Hn].
Defined.

(* ===================================================================== *)
(* Further properties of the task callables                               *)
(* ===================================================================== *)

Lemma conn_after_finally {A : Type} (body : M A) (w : World) :
  conn (try_finally body close w).2 <> ConnOpen.
Proof.
  destruct (body w) as [r w1] eqn:Hb. rewrite (try_finally_close _ _ _ _ Hb).
  destruct (conn w1) eqn:Ec; simpl; congruence.
Qed.

Lemma task_start_frame w d : heap (task_start w d) !! length (heap w) = Some d.
Proof. unfold task_start. simpl. by apply list_lookup_middle. Qed.

(* The price and the benchmark task, from the try block on. *)
Lemma dated_task_body env w d table dataset :
  extracted env = inr d ->
  (do df <- extract env;
   SnowflakeLoader ;;;
   try_finally
     (do result <- load_and_advance env df table dataset;
      xcom_push "records_loaded" (res_records_loaded result))
     close) w
  = try_finally
      (do result <- load_and_advance env (length (heap w)) table dataset;
       xcom_push "records_loaded" (res_records_loaded result))
      close (task_start w d).
Proof. intros He. unfold bind at 1, extract. rewrite He. reflexivity. Qed.

Lemma company_task_body env w d :
  extracted env = inr d ->
  extract_and_load_company_info env w
  = try_finally
      (do result <- load_to_raw env (length (heap w)) "COMPANY_INFO" "company_info" false;
       xcom_push "records_loaded" (res_records_loaded result))
      close (task_start w d).
Proof.
  intros He. unfold extract_and_load_company_info, bind at 1, extract. rewrite He.
  reflexivity.
Qed.

(** X9.  Every task callable releases its connection: when the record
    producer has yielded a frame, the price, company and benchmark tasks
    end with the loader's connection not open, on every path, whether the
    load returns or raises; the gate does so in every case.  When the
    record producer raises instead, the task raises the same exception
    and nothing has happened. *)
Theorem tasks_release_connection env w :
  (forall d, extracted env = inr d ->
     conn (extract_and_load_prices env w).2 <> ConnOpen
     /\ conn (extract_and_load_company_info env w).2 <> ConnOpen
     /\ conn (extract_and_load_benchmarks env w).2 <> ConnOpen)
  /\ conn (verify_data_quality env w).2 <> ConnOpen
  /\ (forall e, extracted env = inl e ->
        extract_and_load_prices env w = (Raise e, w)
        /\ extract_and_load_company_info env w = (Raise e, w)
        /\ extract_and_load_benchmarks env w = (Raise e, w)).
Proof.
  split; [|split].
  - intros d He. split; [|split].
    + unfold extract_and_load_prices. rewrite (dated_task_body _ _ d) by done.
      apply conn_after_finally.
    + rewrite (company_task_body _ _ d) by done. apply conn_after_finally.
    + unfold extract_and_load_benchmarks. rewrite (dated_task_body _ _ d) by done.
      apply conn_after_finally.
  - unfold verify_data_quality, bind at 1, SnowflakeLoader, modify.
    apply conn_after_finally.
  - intros e He.
    unfold extract_and_load_prices, extract_and_load_company_info,
      extract_and_load_benchmarks, bind, extract. by rewrite He.
Qed.

Lemma tasks_release_connection_witness :
  conn (extract_and_load_prices (warehouse_down prices_batch) fresh_world).2 <> ConnOpen.
Proof.
  apply (proj1 (tasks_release_connection (warehouse_down prices_batch) fresh_world)
           prices_batch eq_refl).
Defined.

Lemma load_and_advance_raises env l table dataset w e w1 :
  load_to_raw env l table dataset false w = (Raise e, w1) ->
  load_and_advance env l table dataset w = (Raise e, w1).
Proof. intros H. unfold load_and_advance. by rewrite (bind_raise _ _ _ _ _ H). Qed.

Lemma dated_task_fails env w d table dataset e :
  extracted env = inr d ->
  df_empty d = false ->
  connect_fault env = None ->
  write_error env w table false = Some e ->
  exists w',
    try_finally
      (do result <- load_and_advance env (length (heap w)) table dataset;
       xcom_push "records_loaded" (res_records_loaded result))
      close (task_start w d)
    = (Raise e, w')
    /\ watermarks w' = watermarks w
    /\ tables w' = tables w
    /\ xcom w' = xcom w
    /\ conn w' = ConnClosed
    /\ ingest_runs w'
       = ingest_runs w ++ ledger_entry env (failed_run env (run_token (runs_issued w))
                                              dataset table e).
Proof.
  intros Hx He Hcf Hwe.
  destruct (load_to_raw_cases env (length (heap w)) table dataset false (task_start w d) d
              (task_start_frame w d) He)
    as [(e0 & _ & Hcf0 & _)|[(e0 & _ & Hwe0 & Hr)| (_ & Hwe0 & _)]].
  - congruence.
  - assert (e0 = e) as -> by (unfold write_error in *; simpl in *; congruence).
    eexists. split.
    + apply try_finally_close.
      by rewrite (bind_raise _ _ _ _ _ (load_and_advance_raises _ _ _ _ _ _ _ Hr)).
    + rewrite conn_recorded. cbn [conn set_log at_write set_heap set_runs_issued set_conn].
      cbn [watermarks tables xcom conn ingest_runs set_conn].
      rewrite watermarks_recorded, tables_recorded, ingest_runs_recorded.
      unfold recorded. by destruct (insert_fault env).
  - unfold write_error in *. simpl in *. congruence.
Qed.

(** X10.  A failed load never advances the watermark.  When the load of
    a non-empty batch fails in the price task or in the benchmark task,
    the task raises the exception of the load, the watermarks and the
    tables are as before, nothing is pushed to XCom, the connection is
    closed, and the ledger holds the 'failed' record unless its insert
    failed too. *)
Theorem failed_task_keeps_watermark env w d e :
  extracted env = inr d ->
  df_empty d = false ->
  connect_fault env = None ->
  (write_error env w "STOCK_PRICES_DAILY" false = Some e ->
   exists w',
     extract_and_load_prices env w = (Raise e, w')
     /\ watermarks w' = watermarks w /\ tables w' = tables w /\ xcom w' = xcom w
     /\ conn w' = ConnClosed
     /\ ingest_runs w'
        = ingest_runs w
          ++ ledger_entry env (failed_run env (run_token (runs_issued w))
                                 "stock_prices" "STOCK_PRICES_DAILY" e))
  /\ (write_error env w "BENCHMARK_SERIES_DAILY" false = Some e ->
      exists w',
        extract_and_load_benchmarks env w = (Raise e, w')
        /\ watermarks w' = watermarks w /\ tables w' = tables w /\ xcom w' = xcom w
        /\ conn w' = ConnClosed
        /\ ingest_runs w'
           = ingest_runs w
             ++ ledger_entry env (failed_run env (run_token (runs_issued w))
                                    "benchmark_series" "BENCHMARK_SERIES_DAILY" e)).
Proof.
  intros Hx He Hcf. split; intros Hwe.
  - unfold extract_and_load_prices. rewrite (dated_task_body _ _ d) by done.
    by apply dated_task_fails.
  - unfold extract_and_load_benchmarks. rewrite (dated_task_body _ _ d) by done.
    by apply dated_task_fails.
Qed.

Lemma failed_task_keeps_watermark_witness :
  exists w',
    extract_and_load_prices (warehouse_down prices_batch) fresh_world
    = (Raise (PyExn "OperationalError" "Failed to connect to the warehouse"), w')
    /\ watermarks w' = ∅.
Proof.
  destruct (proj1 (failed_task_keeps_watermark (warehouse_down prices_batch) fresh_world
                     prices_batch
                     (PyExn "OperationalError" "Failed to connect to the warehouse")
                     eq_refl eq_refl eq_refl) eq_refl)
    as (w' & Hrun & Hwm & _).
  exists w'. split; [exact Hrun|exact Hwm].
Defined.

Lemma dated_task_undated env w d table dataset old :
  extracted env = inr d ->
  df_empty d = false ->
  df_get d "date" = None ->
  connect_fault env = None ->
  write_pandas_answer env = Loaded ->
  tables w !! qualified "RAW" table = Some old ->
  let rid := run_token (runs_issued w) in
  exists w',
    try_finally
      (do result <- load_and_advance env (length (heap w)) table dataset;
       xcom_push "records_loaded" (res_records_loaded result))
      close (task_start w d)
    = (Raise (PyExn "KeyError" "date"), w')
    /\ tables w' !! qualified "RAW" table = Some (old ++ df_rows (prepared rid d))
    /\ ingest_runs w'
       = ingest_runs w
         ++ ledger_entry env (completed_run env rid dataset table (Z.of_nat (df_len d)))
    /\ watermarks w' = watermarks w
    /\ xcom w' = xcom w.
Proof.
  intros Hx He Hdate Hcf Ha Ht rid.
  pose proof (load_to_raw_loaded env (length (heap w)) table dataset false (task_start w d)
                d old (task_start_frame w d) He (or_intror Hcf) Ha Ht) as Hload.
  cbv zeta in Hload. cbn [runs_issued task_start set_conn set_heap] in Hload.
  fold rid in Hload. set (w1 := recorded _ _ _) in Hload.
  assert (Hd : deref (length (heap w)) w1 = (Ret d, w1)).
  { unfold deref. subst w1. rewrite heap_recorded. simpl.
    rewrite lookup_app_l by (rewrite length_app; simpl; lia).
    by rewrite list_lookup_middle. }
  eexists. split.
  - apply try_finally_close. unfold bind at 1, load_and_advance.
    rewrite (bind_run _ _ _ _ _ Hload), (bind_run _ _ _ _ _ Hd), He. cbn [negb].
    unfold bind at 1, bind at 1, getitem. rewrite Hdate. reflexivity.
  - subst w1. rewrite conn_recorded.
    cbn [conn set_tables at_write set_heap set_runs_issued set_conn task_start].
    cbn [tables watermarks xcom ingest_runs set_conn].
    rewrite tables_recorded, watermarks_recorded, ingest_runs_recorded.
    cbn [tables watermarks xcom ingest_runs set_tables at_write set_heap set_runs_issued
         set_conn task_start].
    rewrite lookup_insert_eq. repeat split.
    unfold recorded. by destruct (insert_fault env).
Qed.

(** X11.  A batch with no 'date' column is loaded and then fails the
    task.  In the price task and in the benchmark task, when the batch is
    non-empty, has no column named 'date' and the warehouse takes it, the
    rows are appended and the run is recorded as 'completed', and only
    then the task raises KeyError('date'): the watermark is not advanced
    and nothing is pushed to XCom. *)
Theorem undated_batch_fails_after_load env w d :
  extracted env = inr d ->
  df_empty d = false ->
  df_get d "date" = None ->
  connect_fault env = None ->
  write_pandas_answer env = Loaded ->
  let rid := run_token (runs_issued w) in
  (forall old, tables w !! "RAW.STOCK_PRICES_DAILY" = Some old ->
   exists w',
     extract_and_load_prices env w = (Raise (PyExn "KeyError" "date"), w')
     /\ tables w' !! "RAW.STOCK_PRICES_DAILY" = Some (old ++ df_rows (prepared rid d))
     /\ ingest_runs w'
        = ingest_runs w
          ++ ledger_entry env (completed_run env rid "stock_prices" "STOCK_PRICES_DAILY"
                                 (Z.of_nat (df_len d)))
     /\ watermarks w' = watermarks w
     /\ xcom w' = xcom w)
  /\ (forall old, tables w !! "RAW.BENCHMARK_SERIES_DAILY" = Some old ->
      exists w',
        extract_and_load_benchmarks env w = (Raise (PyExn "KeyError" "date"), w')
        /\ tables w' !! "RAW.BENCHMARK_SERIES_DAILY"
           = Some (old ++ df_rows (prepared rid d))
        /\ ingest_runs w'
           = ingest_runs w
             ++ ledger_entry env (completed_run env rid "benchmark_series"
                                    "BENCHMARK_SERIES_DAILY" (Z.of_nat (df_len d)))
        /\ watermarks w' = watermarks w
        /\ xcom w' = xcom w).
Proof.
  intros Hx He Hdate Hcf Ha rid. split; intros old Ht.
  - unfold extract_and_load_prices. rewrite (dated_task_body _ _ d) by done.
    by apply (dated_task_undated env w d "STOCK_PRICES_DAILY" "stock_prices" old).
  - unfold extract_and_load_benchmarks. rewrite (dated_task_body _ _ d) by done.
    by apply (dated_task_undated env w d "BENCHMARK_SERIES_DAILY" "benchmark_series" old).
Qed.

Lemma undated_batch_fails_after_load_witness :
  exists w',
    extract_and_load_prices (no_faults undated_batch) fresh_world
    = (Raise (PyExn "KeyError" "date"), w')
    /\ tables w' !! "RAW.STOCK_PRICES_DAILY"
       = Some ([] ++ df_rows (prepared "run-0" undated_batch))
    /\ watermarks w' = ∅.
Proof.
  destruct (proj1 (undated_batch_fails_after_load (no_faults undated_batch) fresh_world
                     undated_batch eq_refl eq_refl eq_refl eq_refl eq_refl) [] eq_refl)
    as (w' & Hrun & Htab & _ & Hwm & _).
  exists w'. split; [exact Hrun|]. split; [exact Htab|exact Hwm].
Defined.

(** X12.  A task whose record producer yields an empty frame succeeds
    without touching the warehouse: the price, company and benchmark
    tasks return normally, push records_loaded = 0 to XCom and log one
    warning; no connection is opened, and the tables, the ledger and the
    watermarks are as before. *)
Theorem empty_batch_task env w d :
  extracted env = inr d ->
  df_empty d = true ->
  let after table :=
    set_xcom (xcom w ++ [("records_loaded", 0)])
      (set_log (log w ++ [(WARNING, "Empty DataFrame provided for " +:+ table)])
         (task_start w d)) in
  extract_and_load_prices env w = (Ret tt, after "STOCK_PRICES_DAILY")
  /\ extract_and_load_company_info env w = (Ret tt, after "COMPANY_INFO")
  /\ extract_and_load_benchmarks env w = (Ret tt, after "BENCHMARK_SERIES_DAILY").
Proof.
  intros Hx He after.
  assert (Hf : df_empty (frame_at (task_start w d) (length (heap w))) = true).
  { by rewrite (frame_at_some _ _ _ (task_start_frame w d)). }
  assert (Hdated : forall table dataset,
    try_finally
      (do result <- load_and_advance env (length (heap w)) table dataset;
       xcom_push "records_loaded" (res_records_loaded result))
      close (task_start w d) = (Ret tt, after table)).
  { intros table dataset.
    rewrite (try_finally_close _ _ (after table) (Ret tt)); [done|].
    rewrite (bind_run _ _ _ (set_log (log w ++ [(WARNING, "Empty DataFrame provided for "
                                                            +:+ table)])
                               (task_start w d)) (mkLoadResult None 0 "skipped" None)).
    - reflexivity.
    - rewrite load_and_advance_skipped by done.
      rewrite load_to_raw_skipped by done. reflexivity. }
  split; [|split].
  - unfold extract_and_load_prices. rewrite (dated_task_body _ _ d) by done. apply Hdated.
  - rewrite (company_task_body _ _ d) by done.
    rewrite (try_finally_close _ _ (after "COMPANY_INFO") (Ret tt)); [done|].
    erewrite bind_run by (rewrite load_to_raw_skipped by done; reflexivity).
    reflexivity.
  - unfold extract_and_load_benchmarks. rewrite (dated_task_body _ _ d) by done.
    apply Hdated.
Qed.

Lemma empty_batch_task_witness :
  extract_and_load_prices (no_faults empty_frame) fresh_world
  = (Ret tt,
     set_xcom [("records_loaded", 0)]
       (set_log [(WARNING, "Empty DataFrame provided for STOCK_PRICES_DAILY")]
          (task_start fresh_world empty_frame))).
Proof.
  exact (proj1 (empty_batch_task (no_faults empty_frame) fresh_world empty_frame
                  eq_refl eq_refl)).
Defined.

(* ===================================================================== *)
(* Further properties of the gate                                         *)
(* ===================================================================== *)


















Lemma check_counts_stop env t name cs results w :
  connects env w ->
  query_fault env (SelectCount t) = None ->
  tables w !! t = Some [] ->
  check_counts env ((t, name) :: cs) results w
  = (Raise (PyExn "ValueError" ("No data found in " +:+ t)), set_conn ConnOpen w).
Proof.
  intros Hc Hq Ht. cbn [check_counts].
  rewrite (bind_run _ _ _ _ _ (execute_query_count_ok env t w [] Hc Hq Ht)).
  reflexivity.
Qed.

Lemma gate_raises env w e w1 :
  check_counts env checks [] (set_conn NoConn w) = (Raise e, w1) ->
  exists w', verify_data_quality env w = (Raise e, w') /\ log w' = log w1.
Proof.
  intros Hraise. unfold verify_data_quality, bind at 1, SnowflakeLoader, modify.
  erewrite try_finally_close by (by rewrite (bind_raise _ _ _ _ _ Hraise)).
  eexists. split; [done|]. by destruct (conn w1).
Qed.

(** X14.  The gate stops at the first empty collection.  When the
    warehouse answers every query and the three monitored collections
    exist, the gate raises ValueError('No data found in T') for the first
    T, in the order prices, company info, benchmarks, that has no rows,
    and logs nothing. *)
Theorem gate_names_first_empty env w prices company bench :
  connect_fault env = None ->
  (forall q, query_fault env q = None) ->
  tables w !! "COBRA.STOCK_PRICES_DAILY" = Some prices ->
  tables w !! "COBRA.COMPANY_INFO" = Some company ->
  tables w !! "COBRA.BENCHMARK_SERIES_DAILY" = Some bench ->
  let no_data t := Raise (PyExn "ValueError" ("No data found in " +:+ t)) in
  (prices = [] ->
   exists w', verify_data_quality env w = (no_data "COBRA.STOCK_PRICES_DAILY", w')
              /\ log w' = log w)
  /\ (prices <> [] -> company = [] ->
      exists w', verify_data_quality env w = (no_data "COBRA.COMPANY_INFO", w')
                 /\ log w' = log w)
  /\ (prices <> [] -> company <> [] -> bench = [] ->
      exists w', verify_data_quality env w = (no_data "COBRA.BENCHMARK_SERIES_DAILY", w')
                 /\ log w' = log w).
Proof.
  intros Hcf Hqf Hp Hc Hb no_data.
  assert (Hstop : forall t,
             check_counts env checks [] (set_conn NoConn w)
             = (Raise (PyExn "ValueError" ("No data found in " +:+ t)), set_conn ConnOpen w) ->
             exists w', verify_data_quality env w = (no_data t, w') /\ log w' = log w).
  { intros t H. destruct (gate_raises _ _ _ _ H) as (w' & Hrun & Hlog). by exists w'. }
  split; [|split].
  - intros ->. apply Hstop. unfold checks.
    rewrite check_counts_stop; [reflexivity|by right|done|done].
  - intros Hpn ->. apply Hstop. unfold checks.
    rewrite (check_counts_step _ _ _ _ _ _ prices); [|by right|done|done|done].
    rewrite check_counts_stop; [reflexivity|by left|done|done].
  - intros Hpn Hcn ->. apply Hstop. unfold checks.
    rewrite (check_counts_step _ _ _ _ _ _ prices); [|by right|done|done|done].
    rewrite (check_counts_step _ _ _ _ _ _ company); [|by left|done|done|done].
    rewrite check_counts_stop; [reflexivity|by left|done|done].
Qed.

Lemma gate_names_first_empty_witness :
  exists w',
    verify_data_quality (no_faults empty_frame) no_company_world
    = (Raise (PyExn "ValueError" "No data found in COBRA.COMPANY_INFO"), w').
Proof.
  destruct (gate_names_first_empty (no_faults empty_frame) no_company_world
              [[("symbol", VStr "AAPL"); ("date", VDate (mkdate 2023 12 1))];
               [("symbol", VStr "AAPL"); ("date", VDate (mkdate 2023 12 4))]]
              []
              [[("series_ticker", VStr "^GSPC"); ("date", VDate (mkdate 2023 12 4))]])
    as (_ & Hcompany & _); try (vm_compute; reflexivity).
  destruct Hcompany as (w' & Hrun & _); [discriminate|reflexivity|].
  exists w'. exact Hrun.
Defined.



(* ===================================================================== *)
(* Properties of the stand-alone jobs                                     *)
(* ===================================================================== *)

Lemma script_prices_start env w d :
  extracted env = inr d ->
  script_extract_and_load_prices env w
  = (if df_empty d then
       logger_error "No price data extracted!"
     else
       date_range d ;;;
       SnowflakeLoader ;;;
       try_finally
         (do result <- load_and_advance env (length (heap w)) "STOCK_PRICES_DAILY"
                         "stock_prices";
          ret tt)
         close) (set_heap (heap w ++ [d]) w).
Proof.
  intros Hx. unfold script_extract_and_load_prices, bind at 1, extract. rewrite Hx.
  unfold alloc, bind at 1, deref. cbn [heap set_heap]. by rewrite list_lookup_middle.
Qed.

Lemma script_benchmarks_start env w d :
  extracted env = inr d ->
  script_extract_and_load_benchmarks env w
  = (if df_empty d then
       logger_error "No benchmark data extracted!"
     else
       date_range d ;;;
       (do s <- getitem d "series_ticker"; ret tt) ;;;
       SnowflakeLoader ;;;
       try_finally
         (do result <- load_and_advance env (length (heap w)) "BENCHMARK_SERIES_DAILY"
                         "benchmark_series";
          ret tt)
         close) (set_heap (heap w ++ [d]) w).
Proof.
  intros Hx. unfold script_extract_and_load_benchmarks, bind at 1, extract. rewrite Hx.
  unfold alloc, bind at 1, deref. cbn [heap set_heap]. by rewrite list_lookup_middle.
Qed.

(** X16.  The stand-alone jobs stop before they create a loader when the
    record producer yields an empty frame: the price job and the
    benchmark job return normally, log one error and do nothing else;
    unlike the DAG tasks they do not call load_to_raw, so the loader's
    connection is as it was. *)
Theorem script_job_empty env w d :
  extracted env = inr d ->
  df_empty d = true ->
  script_extract_and_load_prices env w
  = (Ret tt, set_log (log w ++ [(ERROR, "No price data extracted!")])
               (set_heap (heap w ++ [d]) w))
  /\ script_extract_and_load_benchmarks env w
     = (Ret tt, set_log (log w ++ [(ERROR, "No benchmark data extracted!")])
                  (set_heap (heap w ++ [d]) w)).
Proof.
  intros Hx He.
  rewrite (script_prices_start env w d Hx), (script_benchmarks_start env w d Hx).
  by rewrite He.
Qed.

Lemma script_job_empty_witness :
  script_extract_and_load_prices (no_faults empty_frame) fresh_world
  = (Ret tt, set_log [(ERROR, "No price data extracted!")]
               (set_heap [empty_frame] fresh_world)).
Proof.
  exact (proj1 (script_job_empty (no_faults empty_frame) fresh_world empty_frame
                  eq_refl eq_refl)).
Defined.

(** X17.  In the stand-alone jobs a batch with no 'date' column fails
    before anything is loaded: for a non-empty batch without that column
    the price job and the benchmark job raise KeyError('date') while
    logging the date range, with no loader created, no row appended and
    no run recorded (the DAG tasks load such a batch first, see X11). *)
Theorem script_job_undated env w d :
  extracted env = inr d ->
  df_empty d = false ->
  df_get d "date" = None ->
  script_extract_and_load_prices env w
  = (Raise (PyExn "KeyError" "date"), set_heap (heap w ++ [d]) w)
  /\ script_extract_and_load_benchmarks env w
     = (Raise (PyExn "KeyError" "date"), set_heap (heap w ++ [d]) w).
Proof.
  intros Hx He Hdate.
  rewrite (script_prices_start env w d Hx), (script_benchmarks_start env w d Hx).
  rewrite He.
  assert (Hr : forall w0, date_range d w0 = (Raise (PyExn "KeyError" "date"), w0)).
  { intros w0. unfold date_range, bind at 1, getitem. by rewrite Hdate. }
  by rewrite !(bind_raise _ _ _ _ _ (Hr _)).
Qed.

Lemma script_job_undated_witness :
  script_extract_and_load_prices (no_faults undated_batch) fresh_world
  = (Raise (PyExn "KeyError" "date"), set_heap [undated_batch] fresh_world).
Proof.
  exact (proj1 (script_job_undated (no_faults undated_batch) fresh_world undated_batch
                  eq_refl eq_refl eq_refl)).
Defined.





(* ===================================================================== *)
(* Properties of the profiles reader                                      *)
(* ===================================================================== *)

Lemma yaml_get_map key dflt items :
  yaml_get key dflt (YMap items) = Ret (default dflt (assoc key items)).
Proof. reflexivity. Qed.

(** X19.  read_profiles on a file that parses returns exactly when the
    document is a mapping that has the profile, the profile a mapping
    with 'outputs', 'outputs' a mapping with the target, and the target a
    mapping; it then returns the nine settings of the target, a setting
    that is absent being None and 'threads' being 1. *)
Theorem read_profiles_returns fs path name target f doc cfg :
  file_at fs path = Some f ->
  file_yaml f = Ret doc ->
  read_profiles fs path name target = Ret cfg
  <-> exists profiles profile outputs out,
        doc = YMap profiles
        /\ assoc name profiles = Some (YMap profile)
        /\ assoc "outputs" profile = Some (YMap outputs)
        /\ assoc target outputs = Some (YMap out)
        /\ cfg = mkProfileConfig
                   (default none (assoc "account" out))
                   (default none (assoc "user" out))
                   (default none (assoc "role" out))
                   (default none (assoc "warehouse" out))
                   (default none (assoc "database" out))
                   (default none (assoc "schema" out))
                   (default none (assoc "private_key_path" out))
                   (default none (assoc "type" out))
                   (default (YScalar (VInt 1)) (assoc "threads" out)).
Proof.
  intros Hf Hdoc. unfold read_profiles. rewrite Hf, Hdoc. cbn [obind]. split.
  - destruct doc as [v|profiles]; [destruct v; cbn; try discriminate;
                                    destruct (contains _ _); discriminate|].
    cbn [yaml_in obind yaml_getitem].
    destruct (assoc name profiles) as [profile|] eqn:Ep; cbn; [|discriminate].
    destruct profile as [v|profile]; [destruct v; cbn; try discriminate;
                                      destruct (contains _ _); discriminate|].
    cbn [yaml_in obind yaml_getitem].
    destruct (assoc "outputs" profile) as [outputs|] eqn:Eo; cbn; [|discriminate].
    destruct outputs as [v|outputs]; [destruct v; cbn; try discriminate;
                                      destruct (contains _ _); discriminate|].
    cbn [yaml_in obind yaml_getitem].
    destruct (assoc target outputs) as [out|] eqn:Et; cbn; [|discriminate].
    destruct out as [v|out]; [discriminate|].
    cbn. intros [= <-]. by exists profiles, profile, outputs, out.
  - intros (profiles & profile & outputs & out & -> & Hp & Ho & Ht & ->).
    cbn [yaml_in obind yaml_getitem]. rewrite Hp. cbn.
    rewrite Ho. cbn. rewrite Ht. reflexivity.
Qed.

Lemma read_profiles_returns_witness :
  read_profiles local_fs "profiles.yml" "finance_analysis_pipeline" "dev"
  = Ret (mkProfileConfig
           (YScalar (VStr "ab12345")) (YScalar (VStr "loader")) none none none none
           (YScalar (VStr "/usr/local/airflow/include/keys/rsa_key.p8"))
           (YScalar (VStr "snowflake")) (YScalar (VInt 1))).
Proof.
  apply (proj2 (read_profiles_returns local_fs "profiles.yml" "finance_analysis_pipeline"
                  "dev" profiles_file profiles_doc _ eq_refl eq_refl)).
  eexists _, _, _, _. repeat split; reflexivity.
Defined.

(** X20.  read_profiles never raises KeyError: on a file that parses,
    every subscript is guarded by a membership test, so a missing file is
    FileNotFoundError, a missing profile, 'outputs' or target is
    ValueError, and a document that is not made of mappings is TypeError
    or AttributeError. *)
Theorem read_profiles_errors fs path name target e :
  (forall f, file_at fs path = Some f -> exists doc, file_yaml f = Ret doc) ->
  read_profiles fs path name target = Raise e ->
  (file_at fs path = None /\ exn_class e = "FileNotFoundError")
  \/ (file_at fs path <> None
      /\ (exn_class e = "ValueError" \/ exn_class e = "TypeError"
          \/ exn_class e = "AttributeError")).
Proof.
  intros Hparse. unfold read_profiles.
  destruct (file_at fs path) as [f|] eqn:Hf; [|intros [= <-]; by left].
  destruct (Hparse f eq_refl) as (doc & ->). cbn [obind]. intros Hr. right.
  split; [done|]. revert Hr.
  destruct doc as [v|profiles];
    [destruct v; cbn; try (intros [= <-]; cbn; tauto);
     destruct (contains _ _); cbn; intros [= <-]; cbn; tauto|].
  cbn [yaml_in obind yaml_getitem].
  destruct (assoc name profiles) as [profile|]; cbn; [|intros [= <-]; cbn; tauto].
  destruct profile as [v|profile];
    [destruct v; cbn; try (intros [= <-]; cbn; tauto);
     destruct (contains _ _); cbn; intros [= <-]; cbn; tauto|].
  cbn [yaml_in obind yaml_getitem].
  destruct (assoc "outputs" profile) as [outputs|]; cbn; [|intros [= <-]; cbn; tauto].
  destruct outputs as [v|outputs];
    [destruct v; cbn; try (intros [= <-]; cbn; tauto);
     destruct (contains _ _); cbn; intros [= <-]; cbn; tauto|].
  cbn [yaml_in obind yaml_getitem].
  destruct (assoc target outputs) as [out|]; cbn; [|intros [= <-]; cbn; tauto].
  destruct out as [v|out]; [intros [= <-]; cbn; tauto|discriminate].
Qed.

Lemma read_profiles_errors_witness :
  let e := PyExn "ValueError"
             "Target 'prod' not found in profile 'finance_analysis_pipeline'" in
  (file_at local_fs "profiles.yml" = None /\ exn_class e = "FileNotFoundError")
  \/ (file_at local_fs "profiles.yml" <> None
      /\ (exn_class e = "ValueError" \/ exn_class e = "TypeError"
          \/ exn_class e = "AttributeError")).
Proof.
  apply (read_profiles_errors local_fs "profiles.yml" "finance_analysis_pipeline" "prod").
  - intros f Hf. vm_compute in Hf. injection Hf as <-. eexists. reflexivity.
  - vm_compute. reflexivity.
Defined.

Lemma append_cons c s t : String c s +:+ t = String c (s +:+ t).
Proof. reflexivity. Qed.

Lemma prefix_append old rest : String.prefix old (old +:+ rest) = true.
Proof.
  induction old as [|c old IH]; [by destruct rest|].
  rewrite append_cons. cbn [String.prefix]. destruct (ascii_dec c c); [exact IH|done].
Qed.

Lemma replace_go_skip old new t rest :
  replace_go old new (String.length t) (t +:+ rest) = replace_go old new 0 rest.
Proof.
  induction t as [|c t IH]; [reflexivity|].
  rewrite append_cons. cbn [String.length replace_go]. exact IH.
Qed.

(* A leading occurrence is replaced and the scan goes on after it. *)
Lemma replace_leading c old new rest :
  replace (String c old) new (String c old +:+ rest) = new +:+ replace (String c old) new rest.
Proof.
  unfold replace. rewrite append_cons. cbn [replace_go].
  pose proof (prefix_append (String c old) rest) as Hprefix.
  rewrite append_cons in Hprefix. rewrite Hprefix. f_equal.
  replace (String.length (String c old) - 1)%nat with (String.length old)
    by (cbn [String.length]; lia).
  apply replace_go_skip.
Qed.

(* A text in which [old] does not occur is left as it is. *)
Lemma replace_absent old new s : contains old s = false -> replace old new s = s.
Proof.
  unfold replace. induction s as [|c s IH]; [reflexivity|].
  cbn [contains replace_go]. intros H. apply orb_false_iff in H as [Hp Hc].
  rewrite Hp. f_equal. by apply IH.
Qed.

(** X21.  Where the private key is read from.  Once read_profiles has
    returned a configuration whose private_key_path is a non-empty text p,
    get_snowflake_connection_params returns the bytes of the file at p
    when it exists, even if the local file exists too; otherwise the
    bytes of the file at p with every '/usr/local/airflow/' removed, when
    that exists; and raises FileNotFoundError when neither does.  The six
    connection settings are those of the target 'dev'. *)
Theorem private_key_resolution fs path name cfg p :
  read_profiles fs path name "dev" = Ret cfg ->
  cfg_private_key_path cfg = YScalar (VStr p) ->
  p <> EmptyString ->
  let local_path := replace "/usr/local/airflow/" EmptyString p in
  let params key :=
    Ret (mkConnectionParams (cfg_account cfg) (cfg_user cfg) (cfg_role cfg)
           (cfg_warehouse cfg) (cfg_database cfg) (cfg_schema cfg) (Some key)) in
  (forall f, file_at fs p = Some f ->
     get_snowflake_connection_params fs path name = params (file_bytes f))
  /\ (forall f, file_at fs p = None -> file_at fs local_path = Some f ->
        get_snowflake_connection_params fs path name = params (file_bytes f))
  /\ (file_at fs p = None -> file_at fs local_path = None ->
        get_snowflake_connection_params fs path name
        = Raise (PyExn "FileNotFoundError"
                   ("Private key not found at " +:+ p +:+ " or " +:+ local_path))).
Proof.
  intros Hcfg Hp Hne local_path params.
  assert (Htruthy : truthy (YScalar (VStr p)) = true).
  { cbn. destruct (String.eqb_spec p EmptyString); done. }
  unfold get_snowflake_connection_params. rewrite Hcfg. cbn [obind].
  rewrite Hp, Htruthy. fold local_path. unfold path_exists, read_bytes.
  split; [|split].
  - intros f Hf. by rewrite Hf.
  - intros f Hf Hl. by rewrite Hf, Hl.
  - intros Hf Hl. by rewrite Hf, Hl.
Qed.

Lemma private_key_resolution_witness :
  par_private_key
    <$> (match get_snowflake_connection_params container_fs "profiles.yml"
                 "finance_analysis_pipeline" with
         | Ret p => Some p
         | Raise _ => None
         end)
  = Some (Some "CONTAINER KEY").
Proof.
  destruct (private_key_resolution container_fs "profiles.yml" "finance_analysis_pipeline"
              (mkProfileConfig
                 (YScalar (VStr "ab12345")) (YScalar (VStr "loader")) none none none none
                 (YScalar (VStr "/usr/local/airflow/include/keys/rsa_key.p8"))
                 (YScalar (VStr "snowflake")) (YScalar (VInt 1)))
              "/usr/local/airflow/include/keys/rsa_key.p8")
    as (Hcontainer & _).
  - vm_compute. reflexivity.
  - reflexivity.
  - discriminate.
  - rewrite (Hcontainer (key_file "CONTAINER KEY")) by (vm_compute; reflexivity).
    reflexivity.
Defined.

(** X22.  No key path, no file access.  When the target has no
    private_key_path, or an empty one, get_snowflake_connection_params
    returns the connection settings with private_key None whatever files
    exist; and when read_profiles raises, it raises the same exception. *)
Theorem no_private_key_path fs path name :
  (forall cfg,
     read_profiles fs path name "dev" = Ret cfg ->
     cfg_private_key_path cfg = none \/ cfg_private_key_path cfg = YScalar (VStr EmptyString) ->
     get_snowflake_connection_params fs path name
     = Ret (mkConnectionParams (cfg_account cfg) (cfg_user cfg) (cfg_role cfg)
              (cfg_warehouse cfg) (cfg_database cfg) (cfg_schema cfg) None))
  /\ (forall e,
        read_profiles fs path name "dev" = Raise e ->
        get_snowflake_connection_params fs path name = Raise e).
Proof.
  split.
  - intros cfg Hcfg Hkey. unfold get_snowflake_connection_params. rewrite Hcfg.
    cbn [obind]. by destruct Hkey as [-> | ->].
  - intros e He. unfold get_snowflake_connection_params. by rewrite He.
Qed.

Lemma no_private_key_path_witness :
  get_snowflake_connection_params ∅ "profiles.yml" "finance_analysis_pipeline"
  = Raise (PyExn "FileNotFoundError" "Profiles file not found: profiles.yml").
Proof.
  apply (proj2 (no_private_key_path ∅ "profiles.yml" "finance_analysis_pipeline")).
  reflexivity.
Defined.

(** X23.  The local fallback of the key path.  For a key path under the
    container prefix, '/usr/local/airflow/' followed by a relative path in
    which the prefix does not occur again, the fallback is that relative
    path: with no file at the container path and one at the relative
    path, the key is read from the relative path.  For a key path in which
    the prefix does not occur at all the fallback is the same path, so a
    missing key is always FileNotFoundError. *)
Theorem local_key_fallback fs path name cfg :
  read_profiles fs path name "dev" = Ret cfg ->
  (forall rel f,
     cfg_private_key_path cfg = YScalar (VStr ("/usr/local/airflow/" +:+ rel)) ->
     contains "/usr/local/airflow/" rel = false ->
     file_at fs ("/usr/local/airflow/" +:+ rel) = None ->
     file_at fs rel = Some f ->
     get_snowflake_connection_params fs path name
     = Ret (mkConnectionParams (cfg_account cfg) (cfg_user cfg) (cfg_role cfg)
              (cfg_warehouse cfg) (cfg_database cfg) (cfg_schema cfg)
              (Some (file_bytes f))))
  /\ (forall p,
        cfg_private_key_path cfg = YScalar (VStr p) ->
        p <> EmptyString ->
        contains "/usr/local/airflow/" p = false ->
        file_at fs p = None ->
        get_snowflake_connection_params fs path name
        = Raise (PyExn "FileNotFoundError"
                   ("Private key not found at " +:+ p +:+ " or " +:+ p))).
Proof.
  intros Hcfg. split.
  - intros rel f Hp Hfree Hno Hrel.
    assert (Hlocal : replace "/usr/local/airflow/" EmptyString ("/usr/local/airflow/" +:+ rel) = rel).
    { rewrite (replace_leading "/" "usr/local/airflow/" EmptyString rel).
      by rewrite (replace_absent _ _ _ Hfree). }
    unfold get_snowflake_connection_params. rewrite Hcfg. cbn [obind]. rewrite Hp.
    cbn [truthy]. unfold path_exists, read_bytes. rewrite Hlocal, Hno, Hrel. reflexivity.
  - intros p Hp Hne Hfree Hno.
    assert (Htruthy : truthy (YScalar (VStr p)) = true).
    { cbn. destruct (String.eqb_spec p EmptyString); done. }
    unfold get_snowflake_connection_params. rewrite Hcfg. cbn [obind].
    rewrite Hp, Htruthy. unfold path_exists, read_bytes.
    by rewrite (replace_absent _ _ _ Hfree), Hno.
Qed.

Lemma local_key_fallback_witness :
  par_private_key
    <$> (match get_snowflake_connection_params local_fs "profiles.yml"
                 "finance_analysis_pipeline" with
         | Ret p => Some p
         | Raise _ => None
         end)
  = Some (Some "LOCAL KEY").
Proof.
  destruct (local_key_fallback local_fs "profiles.yml" "finance_analysis_pipeline"
              (mkProfileConfig
                 (YScalar (VStr "ab12345")) (YScalar (VStr "loader")) none none none none
                 (YScalar (VStr "/usr/local/airflow/include/keys/rsa_key.p8"))
                 (YScalar (VStr "snowflake")) (YScalar (VInt 1))))
    as (Hlocal & _).
  - vm_compute. reflexivity.
  - rewrite (Hlocal "include/keys/rsa_key.p8" (key_file "LOCAL KEY"));
      try (vm_compute; reflexivity).
Defined.
